(** * Request authenticity gate of the skill server

  A shallow embedding of [skillserver/skillserver.go]: the certificate URL
  validator [verifyCertURL], the certificate fetch [readCert], the
  orchestrator [IsValidAlexaRequest], the two middleware handlers
  [validateRequest] and [verifyJSON], the constructor [NewRequestValidator]
  with its options, and the handler registered for an application.

  Go packages become modules ([url], [time], [pkix], [rsa], [x509], [pem],
  [io], [tls], [http]); the functions of Go's standard library that the
  handlers call are the fields of the class [GoLib]; the effects (log lines,
  response writes, calls of the client, clock readings, reads of a request
  body) are threaded through a state-and-panic monad [M] over a [World].
  Readers are objects: the world holds their states, a request holds a
  reference. The modules [neturl], [textproto] and [base64] model three of
  the library's parsers so that the handlers run on concrete strings. *)

From Stdlib Require Import ZArith String Ascii List Bool Lia DecimalString.
From stdpp Require Import gmap strings.
Import ListNotations.

Local Open Scope Z_scope.
Local Open Scope string_scope.

(** ** Go values *)

(** A Go [error]: [None] is [nil], [Some msg] an error whose [Error()] is [msg]. *)
Definition error := option string.

(** [[]byte]. *)
Definition bytes := list Byte.byte.

Module url.
(** The fields of [net/url.URL] that the server reads. *)
Record URL := mkURL {
  Scheme : string;
  Opaque : string;
  Host : string;
  Path : string;
  RawQuery : string;
  Fragment : string
}.

(** [url.Values], a [map[string][]string]. *)
Abbreviation Values := (gmap string (list string)).

(** [func (v Values) Get(key string) string]: the first value of [key],
    the empty string when there is none. *)
Definition Get (v : Values) (key : string) : string :=
  match v !! key with
  | Some (x :: _) => x
  | _ => ""
  end.
End url.

Module time.
(** A [time.Time]: seconds since the Unix epoch and the nanoseconds within
    that second, [0 <= nsec < 10^9]. *)
Record Time := mkTime { sec : Z; nsec : Z }.

(** [func (t Time) Unix() int64]: whole seconds, the nanoseconds dropped. *)
Definition Unix (t : Time) : Z := sec t.

(** [time.Second], a [Duration] counts nanoseconds. *)
Definition Second : Z := 1000000000.

(** [t.Sub(u)] as a number of nanoseconds. *)
Definition Sub (t u : Time) : Z := (sec t - sec u) * Second + (nsec t - nsec u).

(** [t.Before(u)] and [t.After(u)]: the order of instants, nanoseconds
    included. The gate does not call them; they state what "strictly before"
    and "strictly after" mean for two instants. *)
Definition Before (t u : Time) : bool := (Sub t u <? 0)%Z.
Definition After (t u : Time) : bool := (Sub t u >? 0)%Z.

(** An instant whose nanoseconds lie within one second. *)
Definition well_formed (t : Time) : Prop := 0 <= nsec t < Second.
End time.

Module pkix.
(** The dynamic value of the [interface{}] held by
    [AttributeTypeAndValue.Value]: a Go string, or something else. *)
Inductive AttrValue :=
| StringValue (s : string)
| OtherValue (raw : bytes).

Record AttributeTypeAndValue := mkAttr {
  Type_ : list Z;          (* asn1.ObjectIdentifier *)
  Value : AttrValue
}.

(** [pkix.Name], of which the gate reads [Names] only. *)
Record Name := mkName { Names : list AttributeTypeAndValue }.

(** [v == s] for an [interface{}] [v] and a string constant [s]: true when
    the dynamic type is [string] and the strings are equal. *)
Definition value_eq_string (v : AttrValue) (s : string) : bool :=
  match v with
  | StringValue s' => String.eqb s' s
  | OtherValue _ => false
  end.
End pkix.

Module rsa.
Record PublicKey := mkPublicKey { N : Z; E : Z }.
End rsa.

Module x509.
(** The dynamic value of [Certificate.PublicKey], an [interface{}]:
    [*rsa.PublicKey], or a key of another algorithm, or [nil]. *)
Inductive AnyPublicKey :=
| RSAKey (k : rsa.PublicKey)
| ECDSAKey (curve : string) (X Y : Z)
| Ed25519Key (k : bytes)
| NoKey.

Record Certificate := mkCertificate {
  NotBefore : time.Time;
  NotAfter : time.Time;
  Subject : pkix.Name;
  DNSNames : list string;      (* the subject alternative names of type DNS *)
  PublicKey : AnyPublicKey
}.

(** The same certificate with other subject alternative names. *)
Definition with_DNSNames (c : Certificate) (names : list string) : Certificate :=
  {| NotBefore := NotBefore c; NotAfter := NotAfter c; Subject := Subject c;
     DNSNames := names; PublicKey := PublicKey c |}.
End x509.

Module pem.
Record Block := mkBlock { Type_ : string; Bytes : bytes }.
End pem.

(** Modelled from the spec: the type [EchoRequest] is declared in a file of
    the package that is not among the sources. The spec's data model gives an
    incoming request a claimed timestamp, an instant; a request whose timestamp
    is malformed carries none. [verifyJSON] also compares its application id. *)
Record EchoRequest := mkEchoRequest {
  claimed_timestamp : option time.Time;
  application_id : string
}.

Module io.
(** The state of a reader: the bytes it has yet to deliver, and what follows
    them, end of file ([failure = None]) or a read error. *)
Record Stream := mkStream { data : bytes; failure : error }.

(** The state of a reader that has been read to its end: nothing is left to
    deliver, and a read error stays. *)
Definition drained (s : Stream) : Stream :=
  {| data := []; failure := failure s |}.

(** What [ioutil.ReadAll] and [io.Copy] get out of a reader in state [s]:
    everything up to end of file, or up to the read error. *)
Definition ReadAll (s : Stream) : bytes * error := (data s, failure s).

(** An [io.ReadCloser] held by a request: a reference to a reader whose state
    is in the world. New readers get the next free reference; a reference
    that the world does not hold is the nil reader. *)
Definition ReadCloser := nat.
End io.

Module tls.
(** An [*x509.CertPool], by the certificates it holds. *)
Definition CertPool := list bytes.

(** The fields of [tls.Config] that the constructor sets. *)
Record Config := mkConfig { RootCAs : option CertPool; InsecureSkipVerify : bool }.
End tls.

Module http.
(** [http.Header], a [map[string][]string] under canonical keys. *)
Abbreviation Header := (gmap string (list string)).

(** The parts of [*http.Request] the handlers touch; [echoRequest] is the
    context value stored under the key ["echoRequest"]. *)
Record Request := mkRequest {
  URL : url.URL;
  Header_ : Header;
  Body : io.ReadCloser;
  echoRequest : option EchoRequest
}.

Definition with_Body (r : Request) (b : io.ReadCloser) : Request :=
  {| URL := URL r; Header_ := Header_ r; Body := b; echoRequest := echoRequest r |}.

Definition with_echoRequest (r : Request) (e : EchoRequest) : Request :=
  {| URL := URL r; Header_ := Header_ r; Body := Body r; echoRequest := Some e |}.

(** An [http.Client] by the two things the constructor of the package sets:
    its timeout and the TLS configuration of its transport. *)
Record Client := mkClient { Timeout : Z; TLSClientConfig : tls.Config }.
End http.

(** ** Outcomes and panics *)

(** A Go call returns, or panics (a nil dereference, a failed type assertion). *)
Inductive Outcome (A : Type) :=
| Ret (a : A)
| Panic (msg : string).
Arguments Ret {A} a.
Arguments Panic {A} msg.

Definition nil_dereference : string :=
  "runtime error: invalid memory address or nil pointer dereference".

Definition failed_assertion : string :=
  "interface conversion: interface {} is not *rsa.PublicKey".

(** ** The world the handlers run in *)

(** The calls that leave the package, in the order they happen. [EvGet]
    is one call of [Get] on a client; what the client does on the wire for
    that call (redirects included) is the library's. *)
Inductive Event :=
| EvLog (msg : string)                     (* log.Println(msg) *)
| EvHTTPError (body : string) (code : Z)   (* http.Error(w, body, code) *)
| EvGet (certURL : string)                 (* client.Get(certURL) *)
| EvPemDecode (contents : bytes)           (* pem.Decode *)
| EvParseCertificate (der : bytes)         (* x509.ParseCertificate *)
| EvBase64Decode (s : string)              (* base64.StdEncoding.DecodeString *)
| EvSHA1 (body : bytes)                    (* io.Copy(hash, ...) into sha1.New() *)
| EvVerifyPKCS1v15 (hashed sig : bytes)    (* rsa.VerifyPKCS1v15 *)
| EvJSONDecode.                            (* json.NewDecoder(r.Body).Decode *)

(** An entry of the package variable [applications]. *)
Inductive Application :=
| EchoApplication (AppID : string)
| StdApplication (Methods : string).

(** The state outside the handler: what has been observed so far; the clock
    (the reading of the [n]-th call of [time.Now]); the network (what the
    [n]-th call of [Get], made on a client for a URL, returns: an error, or a
    response whose body is a reader in the given state); the states of the
    readers that requests refer to; and the package variable [applications]. *)
Record World := mkWorld {
  trace : list Event;
  clock : nat -> time.Time;
  ticks : nat;
  remote : http.Client -> nat -> string -> string + io.Stream;
  fetches : nat;
  readers : list io.Stream;
  applications : gmap string Application
}.

(** ** The monad of handlers: state and panics *)

Definition M (A : Type) : Type := World -> Outcome A * World.

Definition ret {A} (a : A) : M A := fun w => (Ret a, w).

Definition bind {A B} (m : M A) (k : A -> M B) : M B :=
  fun w => match m w with
           | (Ret a, w') => k a w'
           | (Panic msg, w') => (Panic msg, w')
           end.

Definition panic {A} (msg : string) : M A := fun w => (Panic msg, w).

Definition lift {A} (o : Outcome A) : M A := fun w => (o, w).

Declare Scope go_scope.
Delimit Scope go_scope with go.
Notation "x <- c1 ;; c2" := (bind c1 (fun x => c2))
  (at level 20, c1 at level 99, c2 at level 200, only parsing) : go_scope.
Notation "c1 ;; c2" := (bind c1 (fun _ => c2))
  (at level 100, c2 at level 200, only parsing, right associativity) : go_scope.
Local Open Scope go_scope.

(** The world after the events [evs] have been observed. *)
Definition observe (evs : list Event) (w : World) : World :=
  {| trace := trace w ++ evs; clock := clock w; ticks := ticks w;
     remote := remote w; fetches := fetches w; readers := readers w;
     applications := applications w |}.

(** The events observed between the world [w] and the later world [w']. *)
Definition events_since (w w' : World) : list Event :=
  skipn (length (trace w)) (trace w').

Definition emit (e : Event) : M unit := fun w => (Ret tt, observe [e] w).

(** The world after one more reading of the clock. *)
Definition tick (w : World) : World :=
  {| trace := trace w; clock := clock w; ticks := S (ticks w);
     remote := remote w; fetches := fetches w; readers := readers w;
     applications := applications w |}.

(** The world after one more call of [Get] has been answered. *)
Definition next_fetch (w : World) : World :=
  {| trace := trace w; clock := clock w; ticks := ticks w;
     remote := remote w; fetches := S (fetches w); readers := readers w;
     applications := applications w |}.

(** The world with the readers in the states [rs]. *)
Definition store (rs : list io.Stream) (w : World) : World :=
  {| trace := trace w; clock := clock w; ticks := ticks w;
     remote := remote w; fetches := fetches w; readers := rs;
     applications := applications w |}.

(** [time.Now()]: the next reading of the clock. *)
Definition time_Now : M time.Time := fun w => (Ret (clock w (ticks w)), tick w).

(** [c.Get(certURL)] for a [c *http.Client], on a URL that [url.Parse]
    accepts (the package calls it on no other). On the nil client the call
    panics when [Get] reads the client's timeout, before anything is sent.
    Otherwise it is one call, answered by the network; the body of the
    response is a reader of its own, which only the caller holds. *)
Definition client_Get (c : option http.Client) (certURL : string)
  : M (string + io.Stream) :=
  match c with
  | None => panic nil_dereference
  | Some c =>
      emit (EvGet certURL) ;;
      fun w => (Ret (remote w c (fetches w) certURL), next_fetch w)
  end.

(** Reading the reader behind [body] to its end, as [io.Copy] and
    [ioutil.ReadAll] do: the bytes and the error; the reader is left drained.
    Reading through the nil reader panics. *)
Definition read_to_end (body : io.ReadCloser) : M (bytes * error) :=
  fun w => match readers w !! body with
           | None => (Panic nil_dereference, w)
           | Some s => (Ret (io.ReadAll s), store (<[body := io.drained s]> (readers w)) w)
           end.

(** [ioutil.NopCloser(&buf)]: a new reader over the contents of a buffer. *)
Definition ioutil_NopCloser (buf : bytes) : M io.ReadCloser :=
  fun w => (Ret (length (readers w)),
            store (readers w ++ [io.mkStream buf None])%list w).

(** [applications[path]]. *)
Definition lookup_application (path : string) : M (option Application) :=
  fun w => (Ret (applications w !! path), w).

(** ** The standard library, as the gate sees it *)

Class GoLib := {
  (** [url.Parse]: the [*URL], [None] for the nil pointer it returns together
      with an error. *)
  url_Parse : string -> option url.URL;
  (** [url.ParseQuery], errors dropped as [URL.Query] does. *)
  url_ParseQuery : string -> url.Values;
  (** [textproto.CanonicalMIMEHeaderKey]. *)
  textproto_CanonicalMIMEHeaderKey : string -> string;
  (** [pem.Decode], first result: the block, [None] for nil. *)
  pem_Decode : bytes -> option pem.Block;
  (** [x509.ParseCertificate]. *)
  x509_ParseCertificate : bytes -> string + x509.Certificate;
  (** [base64.StdEncoding.DecodeString]: the bytes decoded so far and the error. *)
  base64_DecodeString : string -> bytes * error;
  (** [sha1]: the digest of everything written to the hash. *)
  sha1_Sum : bytes -> bytes;
  (** [rsa.VerifyPKCS1v15(pub, crypto.SHA1, hashed, sig)]. *)
  rsa_VerifyPKCS1v15 : rsa.PublicKey -> bytes -> bytes -> error;
  (** [json.NewDecoder(body).Decode(&echoReq)] for [var echoReq *EchoRequest]
      on a reader in the given state: the error, or the pointer (nil for the
      JSON value null); and the state in which the decoder leaves the
      reader. *)
  json_Decode : io.Stream -> (string + option EchoRequest) * io.Stream
}.

(** The methods of [*EchoRequest] that [verifyJSON] calls; their file is not
    among the sources. [VerifyTimestamp] reads the clock. *)
Class EchoRequestMethods := {
  VerifyTimestamp : EchoRequest -> M bool;
  VerifyAppID : EchoRequest -> string -> bool
}.

(** [strings.HasPrefix(s, prefix)]. *)
Definition strings_HasPrefix (s prefix : string) : bool := String.prefix prefix s.

(** [func HTTPError(w, logMsg, err, errCode)] (source lines 248-254). *)
Definition HTTPError (logMsg err : string) (errCode : Z) : M unit :=
  (if negb (String.eqb logMsg "") then emit (EvLog logMsg) else ret tt) ;;
  emit (EvHTTPError err errCode).

(** What one call of [HTTPError] leaves in the trace. *)
Definition rejection (logMsg err : string) (errCode : Z) : list Event :=
  (if String.eqb logMsg "" then [] else [EvLog logMsg]) ++ [EvHTTPError err errCode].

(** The events of the signature stage: the digest of the body and the RSA
    verification. *)
Definition is_signature_event (e : Event) : bool :=
  match e with
  | EvSHA1 _ | EvVerifyPKCS1v15 _ _ => true
  | _ => false
  end.

(** The struct of source lines 282-286; [client] is a pointer, [None] for
    nil, as in the zero value [RequestValidator{}]. *)
Record RequestValidator := mkRequestValidator {
  client : option http.Client;
  insecureSkipVerify : bool;
  timeout : Z
}.

(** The loop of source lines 393-398 over [cert.Subject.Names]. *)
Definition foundName (names : list pkix.AttributeTypeAndValue) : bool :=
  fold_left
    (fun found altName =>
       if pkix.value_eq_string (pkix.Value altName) "echo-api.amazon.com"
       then true else found)
    names false.

(** The condition of source line 387: [time.Now] is read once for the left
    comparison and, when that one is false, once more for the right one. *)
Definition certDateInvalid (cert : x509.Certificate) : M bool :=
  t1 <- time_Now ;;
  if (time.Unix t1 <? time.Unix (x509.NotBefore cert))%Z then ret true
  else t2 <- time_Now ;;
       ret (time.Unix t2 >? time.Unix (x509.NotAfter cert))%Z.

Section Gate.
Context {lib : GoLib}.

(** [h.Get(key)]: the first value under the canonical form of [key]. *)
Definition Header_Get (h : http.Header) (key : string) : string :=
  match h !! textproto_CanonicalMIMEHeaderKey key with
  | Some (x :: _) => x
  | _ => ""
  end.

(** [u.Query()]. *)
Definition URL_Query (u : url.URL) : url.Values := url_ParseQuery (url.RawQuery u).

(** Source lines 443-459. [link, _ := url.Parse(path)] drops the error; on a
    parse error [link] is nil and the read of [link.Scheme] panics. *)
Definition verifyCertURL (path : string) : Outcome bool :=
  match url_Parse path with
  | None => Panic nil_dereference
  | Some link =>
      if negb (String.eqb (url.Scheme link) "https") then Ret false
      else if negb (String.eqb (url.Host link) "s3.amazonaws.com")
              && negb (String.eqb (url.Host link) "s3.amazonaws.com:443")
      then Ret false
      else if negb (strings_HasPrefix (url.Path link) "/echo.api/") then Ret false
      else Ret true
  end.

(** Source lines 429-441. The result is the error or the contents. *)
Definition readCert (r : RequestValidator) (certURL : string) : M (string + bytes) :=
  got <- client_Get (client r) certURL ;;
  match got with
  | inl err => ret (inl ("could not download Amazon cert file: " ++ err))
  | inr body =>
      match io.ReadAll body with
      | (_, Some err) => ret (inl ("could not read Amazon cert file: " ++ err))
      | (certContents, None) => ret (inr certContents)
      end
  end.

(** Source lines 405-426: the signature stage, entered with the certificate
    that passed the date and name checks. The reader behind [request.Body] is
    read to its end through a tee into [bodyBuf] and into the hash, which
    drains it; a read error answers 500 and leaves the request with the
    drained reader; otherwise [request.Body] is pointed at a new reader over
    [bodyBuf] before the key is asserted to be an RSA key. *)
Definition verifySignature (cert : x509.Certificate) (request : http.Request)
  : M (bool * http.Request) :=
  let publicKey := x509.PublicKey cert in
  let sigHeader := Header_Get (http.Header_ request) "Signature" in
  emit (EvBase64Decode sigHeader) ;;
  let encryptedSig := fst (base64_DecodeString sigHeader) in
  copied <- read_to_end (http.Body request) ;;
  let '(bodyBuf, err) := copied in
  emit (EvSHA1 bodyBuf) ;;
  match err with
  | Some e =>
      HTTPError e "Internal Error" 500 ;;
      ret (false, request)
  | None =>
      replay <- ioutil_NopCloser bodyBuf ;;
      let request' := http.with_Body request replay in
      match publicKey with
      | x509.RSAKey k =>
          let hashed := sha1_Sum bodyBuf in
          emit (EvVerifyPKCS1v15 hashed encryptedSig) ;;
          match rsa_VerifyPKCS1v15 k hashed encryptedSig with
          | Some _ =>
              HTTPError "Signature match failed." "Not Authorized" 401 ;;
              ret (false, request')
          | None => ret (true, request')
          end
      | _ => panic failed_assertion
      end
  end.

(** Source lines 386-426: the checks on the parsed certificate, date, then
    name, then signature. *)
Definition validateCertificate (cert : x509.Certificate) (request : http.Request)
  : M (bool * http.Request) :=
  bad <- certDateInvalid cert ;;
  if bad then
    HTTPError "Amazon certificate expired." "Not Authorized" 401 ;;
    ret (false, request)
  else if negb (foundName (pkix.Names (x509.Subject cert))) then
    HTTPError "Amazon certificate invalid." "Not Authorized" 401 ;;
    ret (false, request)
  else verifySignature cert request.

(** Source lines 354-427. The result is the boolean and the request as the
    call leaves it (the handler holds a pointer to it). *)
Definition IsValidAlexaRequest (r : RequestValidator) (request : http.Request)
  : M (bool * http.Request) :=
  if insecureSkipVerify r then ret (true, request)
  else
    let certURL := Header_Get (http.Header_ request) "SignatureCertChainUrl" in
    urlOK <- lift (verifyCertURL certURL) ;;
    if negb urlOK then
      HTTPError ("Invalid cert URL: " ++ certURL) "Not Authorized" 401 ;;
      ret (false, request)
    else
      got <- readCert r certURL ;;
      match got with
      | inl err => HTTPError err "Not Authorized" 401 ;; ret (false, request)
      | inr certContents =>
          emit (EvPemDecode certContents) ;;
          match pem_Decode certContents with
          | None =>
              HTTPError "Failed to parse certificate PEM." "Not Authorized" 401 ;;
              ret (false, request)
          | Some block =>
              emit (EvParseCertificate (pem.Bytes block)) ;;
              match x509_ParseCertificate (pem.Bytes block) with
              | inl err => HTTPError err "Not Authorized" 401 ;; ret (false, request)
              | inr cert => validateCertificate cert request
              end
          end
      end.

(** Source lines 339-347. [next] is the rest of the middleware chain. *)
Definition validateRequest (r : RequestValidator) (req : http.Request)
  (next : http.Request -> M unit) : M unit :=
  let devFlag := url.Get (URL_Query (http.URL req)) "_dev" in
  let isDev := negb (String.eqb devFlag "") in
  if negb isDev then
    res <- IsValidAlexaRequest r req ;;
    if negb (fst res) then emit (EvLog "Request invalid")
    else next (snd res)
  else next req.

(** [json.NewDecoder(body).Decode(&echoReq)]: the decoder reads from the
    reader behind [body] and leaves it in the state the library says. *)
Definition decode_body (body : io.ReadCloser) : M (string + option EchoRequest) :=
  fun w => match readers w !! body with
           | None => (Panic nil_dereference, w)
           | Some s =>
               (Ret (fst (json_Decode s)),
                store (<[body := snd (json_Decode s)]> (readers w)) w)
           end.

Section VerifyJSON.
Context {methods : EchoRequestMethods}.

(** Source lines 271-279: the application id, then the rest of the chain
    with the decoded request in the context. *)
Definition checkAppID (r : http.Request) (echoReq : EchoRequest)
  (next : http.Request -> M unit) : M unit :=
  app <- lookup_application (url.Path (http.URL r)) ;;
  match app with
  | Some (EchoApplication AppID) =>
      if negb (VerifyAppID echoReq AppID) then
        HTTPError "Echo AppID mismatch!" "Bad Request" 400
      else next (http.with_echoRequest r echoReq)
  | _ => panic "interface conversion: interface {} is not skillserver.EchoApplication"
  end.

(** Source lines 257-280. *)
Definition verifyJSON (r : http.Request) (next : http.Request -> M unit) : M unit :=
  emit EvJSONDecode ;;
  decoded <- decode_body (http.Body r) ;;
  match decoded with
  | inl err => HTTPError err "Bad Request" 400
  | inr None => panic nil_dereference
  | inr (Some echoReq) =>
      fresh <- VerifyTimestamp echoReq ;;
      if negb fresh && String.eqb (url.Get (URL_Query (http.URL r)) "_dev") "" then
        HTTPError "Request too old to continue (>150s)." "Bad Request" 400
      else checkAppID r echoReq next
  end.
End VerifyJSON.

(** The reasons the gate logs when it answers 401. *)
Inductive GateReason (request : http.Request) : string -> Prop :=
| reason_cert_url :
    GateReason request
      ("Invalid cert URL: " ++ Header_Get (http.Header_ request) "SignatureCertChainUrl")
| reason_download err :
    GateReason request ("could not download Amazon cert file: " ++ err)
| reason_read err :
    GateReason request ("could not read Amazon cert file: " ++ err)
| reason_pem : GateReason request "Failed to parse certificate PEM."
| reason_x509 der err :
    x509_ParseCertificate der = inl err -> GateReason request err
| reason_expired : GateReason request "Amazon certificate expired."
| reason_name : GateReason request "Amazon certificate invalid."
| reason_signature : GateReason request "Signature match failed.".
End Gate.

(** ** The freshness check *)

Module Spec.
(** The freshness window, 150 seconds. *)
Definition freshness_window : Z := 150 * time.Second.

(** Modelled from the spec: the method [VerifyTimestamp] of [*EchoRequest]
    is in a file that is not among the sources. The spec's contract reads:
    given a claimed timestamp, reject if [|now - claimed| > freshness-window]
    (default 150 seconds); a malformed timestamp is rejected as well. *)
Definition VerifyTimestamp (echoReq : EchoRequest) : M bool :=
  now <- time_Now ;;
  match claimed_timestamp echoReq with
  | None => ret false
  | Some claimed => ret (Z.abs (time.Sub now claimed) <=? freshness_window)%Z
  end.

(** The methods of [*EchoRequest] with the freshness check of the spec; the
    comparison of application ids is left open. *)
Definition methods (verifyAppID : EchoRequest -> string -> bool) : EchoRequestMethods :=
  Build_EchoRequestMethods VerifyTimestamp verifyAppID.
End Spec.

(** ** An executable model of [net/url.Parse]

    The parser of Go's standard library (release 1.13, the one named by
    [go.mod]), restricted to the fields of [url.URL] above: the user
    information is checked but not kept, and [RawPath] and [ForceQuery] are
    not computed. It serves to run the gate on concrete strings. *)

Module neturl.

Definition code (c : ascii) : nat := nat_of_ascii c.

Definition between (lo hi c : ascii) : bool :=
  (code lo <=? code c)%nat && (code c <=? code hi)%nat.

Definition is_alpha (c : ascii) : bool := between "a" "z" c || between "A" "Z" c.
Definition is_digit (c : ascii) : bool := between "0" "9" c.

Fixpoint mem (c : ascii) (set : string) : bool :=
  match set with
  | EmptyString => false
  | String d set' => Ascii.eqb c d || mem c set'
  end.

(** [stringContainsCTLByte]: a byte below 0x20, or 0x7f. *)
Fixpoint stringContainsCTLByte (s : string) : bool :=
  match s with
  | EmptyString => false
  | String c s' => (code c <? 32)%nat || (code c =? 127)%nat || stringContainsCTLByte s'
  end.

(** [split(s, sep, cutc)]: around the first [sep]; without one, [(s, "")]. *)
Fixpoint split (s : string) (sep : ascii) (cutc : bool) : string * string :=
  match s with
  | EmptyString => ("", "")
  | String c s' =>
      if Ascii.eqb c sep then ("", if cutc then s' else s)
      else let '(a, b) := split s' sep cutc in (String c a, b)
  end.

(** [strings.LastIndex(s, sep) >= 0] together with the two sides of the last
    [sep], which stays at the head of the second one. *)
Fixpoint split_last (s : string) (sep : ascii) : option (string * string) :=
  match s with
  | EmptyString => None
  | String c s' =>
      match split_last s' sep with
      | Some (a, b) => Some (String c a, b)
      | None => if Ascii.eqb c sep then Some ("", s) else None
      end
  end.

Definition tail (s : string) : string :=
  match s with EmptyString => "" | String _ s' => s' end.

Inductive SchemeScan :=
| NoScheme
| MissingScheme
| FoundScheme (scheme rest : string).

(** The loop of [getscheme]; [first] says that the index is 0. *)
Fixpoint scan_scheme (first : bool) (s : string) : SchemeScan :=
  match s with
  | EmptyString => NoScheme
  | String c s' =>
      let continue :=
        match scan_scheme false s' with
        | FoundScheme p r => FoundScheme (String c p) r
        | other => other
        end in
      if is_alpha c then continue
      else if is_digit c || mem c "+-." then (if first then NoScheme else continue)
      else if Ascii.eqb c ":" then (if first then MissingScheme else FoundScheme "" s')
      else NoScheme
  end.

(** [getscheme]: [None] is the error "missing protocol scheme". *)
Definition getscheme (rawurl : string) : option (string * string) :=
  match scan_scheme true rawurl with
  | NoScheme => Some ("", rawurl)
  | MissingScheme => None
  | FoundScheme scheme rest => Some (scheme, rest)
  end.

Definition lower (c : ascii) : ascii :=
  if between "A" "Z" c then ascii_of_nat (code c + 32) else c.

Definition upper (c : ascii) : ascii :=
  if between "a" "z" c then ascii_of_nat (code c - 32) else c.

Fixpoint ToLower (s : string) : string :=
  match s with
  | EmptyString => ""
  | String c s' => String (lower c) (ToLower s')
  end.

Definition ishex (c : ascii) : bool :=
  is_digit c || between "a" "f" c || between "A" "F" c.

Definition unhex (c : ascii) : nat :=
  if is_digit c then code c - 48
  else if between "a" "f" c then code c - 97 + 10
  else if between "A" "F" c then code c - 65 + 10
  else 0.

Inductive encoding :=
| encodePath | encodeHost | encodeZone | encodeUserPassword
| encodeQueryComponent | encodeFragment.

Definition is_host_mode (mode : encoding) : bool :=
  match mode with encodeHost | encodeZone => true | _ => false end.

(** [shouldEscape(c, encodeHost)]. *)
Definition shouldEscapeHost (c : ascii) : bool :=
  negb (is_alpha c || is_digit c
        || mem c "!$&'()*+,;=:[]<>"
        || Ascii.eqb c (ascii_of_nat 34)
        || mem c "-_.~").

(** [unescape(s, mode)]: [None] for an [EscapeError] or [InvalidHostError]. *)
Fixpoint unescape (s : string) (mode : encoding) : option string :=
  match s with
  | EmptyString => Some ""
  | String "%" (String a (String b s')) =>
      if negb (ishex a && ishex b) then None
      else if match mode with encodeHost => true | _ => false end
              && (unhex a <? 8)%nat
              && negb (Ascii.eqb a "2" && Ascii.eqb b "5")
      then None
      else if match mode with encodeZone => true | _ => false end
              && negb (Ascii.eqb a "2" && Ascii.eqb b "5")
              && negb (unhex a * 16 + unhex b =? 32)%nat
              && shouldEscapeHost (ascii_of_nat (unhex a * 16 + unhex b))
      then None
      else option_map (String (ascii_of_nat (unhex a * 16 + unhex b))) (unescape s' mode)
  | String "%" _ => None
  | String "+" s' =>
      option_map
        (String (match mode with encodeQueryComponent => " "%char | _ => "+"%char end))
        (unescape s' mode)
  | String c s' =>
      if is_host_mode mode && (code c <? 128)%nat && shouldEscapeHost c then None
      else option_map (String c) (unescape s' mode)
  end.

Fixpoint all_digits (s : string) : bool :=
  match s with
  | EmptyString => true
  | String c s' => is_digit c && all_digits s'
  end.

Definition validOptionalPort (port : string) : bool :=
  match port with
  | EmptyString => true
  | String c digits => Ascii.eqb c ":" && all_digits digits
  end.

Fixpoint validUserinfo (s : string) : bool :=
  match s with
  | EmptyString => true
  | String c s' =>
      (is_alpha c || is_digit c || mem c "-._:~!$&'()*+,;=%@") && validUserinfo s'
  end.

(** [strings.Index(s, "%25")], as the two sides of the first occurrence. *)
Fixpoint split_zone (s : string) : option (string * string) :=
  match s with
  | EmptyString => None
  | String c s' =>
      if String.prefix "%25" s then Some ("", s)
      else match split_zone s' with
           | Some (a, b) => Some (String c a, b)
           | None => None
           end
  end.

Definition concat3 (a b c : option string) : option string :=
  match a, b, c with
  | Some x, Some y, Some z => Some (x ++ y ++ z)
  | _, _, _ => None
  end.

(** [parseHost]. *)
Definition parseHost (host : string) : option string :=
  if String.prefix "[" host then
    match split_last host "]" with
    | None => None
    | Some (before, bracket_on) =>
        if negb (validOptionalPort (tail bracket_on)) then None
        else match split_zone before with
             | Some (host1, zone) =>
                 concat3 (unescape host1 encodeHost) (unescape zone encodeZone)
                         (unescape bracket_on encodeHost)
             | None => unescape host encodeHost
             end
    end
  else
    match split_last host ":" with
    | Some (_, colonPort) =>
        if negb (validOptionalPort colonPort) then None else unescape host encodeHost
    | None => unescape host encodeHost
    end.

(** [parseAuthority], second result. *)
Definition parseAuthority (authority : string) : option string :=
  match split_last authority "@" with
  | None => parseHost authority
  | Some (userinfo, at_host) =>
      match parseHost (tail at_host) with
      | None => None
      | Some host =>
          if negb (validUserinfo userinfo) then None
          else
            let '(username, password) := split userinfo ":" true in
            match unescape username encodeUserPassword,
                  unescape password encodeUserPassword with
            | Some _, Some _ => Some host
            | _, _ => None
            end
      end
  end.

(** Whether the first path segment holds a colon. *)
Fixpoint colon_in_first_segment (rest : string) : bool :=
  match rest with
  | EmptyString => false
  | String c rest' =>
      if Ascii.eqb c ":" then true
      else if Ascii.eqb c "/" then false
      else colon_in_first_segment rest'
  end.

(** [parse(rawurl, false)]. *)
Definition parse (rawurl : string) : option url.URL :=
  if stringContainsCTLByte rawurl then None
  else if String.eqb rawurl "*" then Some (url.mkURL "" "" "" "*" "" "")
  else
    match getscheme rawurl with
    | None => None
    | Some (scheme, rest) =>
        let scheme := ToLower scheme in
        let '(rest, rawQuery) := split rest "?" true in
        if negb (String.prefix "/" rest) && negb (String.eqb scheme "") then
          Some (url.mkURL scheme rest "" "" rawQuery "")
        else if negb (String.prefix "/" rest) && colon_in_first_segment rest then None
        else
          let authority_rest :=
            if (negb (String.eqb scheme "") || negb (String.prefix "///" rest))
               && String.prefix "//" rest
            then let '(authority, rest') := split (tail (tail rest)) "/" false in
                 (parseAuthority authority, rest')
            else (Some "", rest) in
          match authority_rest with
          | (None, _) => None
          | (Some host, rest) =>
              match unescape rest encodePath with
              | None => None
              | Some path => Some (url.mkURL scheme "" host path rawQuery "")
              end
          end
    end.

(** [url.Parse]. *)
Definition Parse (rawurl : string) : option url.URL :=
  let '(u, frag) := split rawurl "#" true in
  match parse u with
  | None => None
  | Some link =>
      if String.eqb frag "" then Some link
      else match unescape frag encodeFragment with
           | None => None
           | Some fragment =>
               Some (url.mkURL (url.Scheme link) (url.Opaque link) (url.Host link)
                               (url.Path link) (url.RawQuery link) fragment)
           end
  end.

(** [strings.IndexAny(query, "&;")] cuts: the pieces between the separators. *)
Fixpoint pieces (query : string) : list string :=
  match query with
  | EmptyString => [""]
  | String c query' =>
      if mem c "&;" then "" :: pieces query'
      else match pieces query' with
           | p :: ps => String c p :: ps
           | [] => [String c ""]
           end
  end.

(** One round of the loop of [parseQuery] on the piece [key]. *)
Definition add_pair (m : url.Values) (key : string) : url.Values :=
  if String.eqb key "" then m
  else
    let '(key, value) := split key "=" true in
    match unescape key encodeQueryComponent, unescape value encodeQueryComponent with
    | Some key, Some value => <[key := (default [] (m !! key) ++ [value])%list]> m
    | _, _ => m
    end.

(** [url.ParseQuery], first result. *)
Definition ParseQuery (query : string) : url.Values :=
  fold_left add_pair (pieces query) ∅.

End neturl.

(** ** An executable model of [textproto.CanonicalMIMEHeaderKey] *)

Module textproto.

Definition validHeaderFieldByte (c : ascii) : bool :=
  neturl.is_alpha c || neturl.is_digit c || neturl.mem c "!#$%&'*+-.^_`|~".

Fixpoint all_valid (s : string) : bool :=
  match s with
  | EmptyString => true
  | String c s' => validHeaderFieldByte c && all_valid s'
  end.

(** Upper case at the start and after each dash, lower case elsewhere. *)
Fixpoint canonical (upper : bool) (s : string) : string :=
  match s with
  | EmptyString => ""
  | String c s' =>
      let c' := if upper then neturl.upper c else neturl.lower c in
      String c' (canonical (Ascii.eqb c' "-") s')
  end.

Definition CanonicalMIMEHeaderKey (s : string) : string :=
  if all_valid s then canonical true s else s.

End textproto.

(** ** An executable model of [base64.StdEncoding.DecodeString] *)

Module base64.

Definition encodeStd : string :=
  "ABCDEFGHIJKLMNOPQRSTUVWXYZabcdefghijklmnopqrstuvwxyz0123456789+/".

Fixpoint index_from (i : nat) (c : ascii) (alphabet : string) : option nat :=
  match alphabet with
  | EmptyString => None
  | String d alphabet' => if Ascii.eqb c d then Some i else index_from (S i) c alphabet'
  end.

(** [enc.decodeMap[c]], [None] for 0xff. *)
Definition decodeMap (c : ascii) : option nat := index_from 0 c encodeStd.

Definition is_newline (c : ascii) : bool :=
  Ascii.eqb c (ascii_of_nat 10) || Ascii.eqb c (ascii_of_nat 13).

Fixpoint skip_newlines (src : string) (si : nat) : string * nat :=
  match src with
  | String c src' => if is_newline c then skip_newlines src' (S si) else (src, si)
  | EmptyString => (src, si)
  end.

(** [CorruptInputError(n).Error()]. *)
Definition CorruptInputError (n : nat) : string :=
  "illegal base64 data at input byte " ++ NilEmpty.string_of_uint (Nat.to_uint n).

(** The last lines of [decodeQuantum]: four 6-bit values into [dlen - 1] bytes. *)
Definition convert (dbuf : list nat) (dlen : nat) : bytes :=
  let d := fun i => N.of_nat (nth i dbuf 0%nat) in
  let val := (N.shiftl (d 0%nat) 18 + N.shiftl (d 1%nat) 12 + N.shiftl (d 2%nat) 6 + d 3%nat)%N in
  let b0 := (N.shiftr val 16 mod 256)%N in
  let b1 := (N.shiftr val 8 mod 256)%N in
  let b2 := (val mod 256)%N in
  map (fun n => byte_of_ascii (ascii_of_N n)) (firstn (dlen - 1) [b0; b1; b2]).

(** [decodeQuantum] from index [si], where [src] is what remains and [dbuf]
    holds the [j] values read so far: what remains after it, the new index,
    the bytes written, the error. *)
Fixpoint decodeQuantum (src : string) (si : nat) (dbuf : list nat)
  : string * nat * bytes * error :=
  match src with
  | EmptyString =>
      match dbuf with
      | [] => (src, si, [], None)
      | _ => (src, si, [], Some (CorruptInputError (si - length dbuf)))
      end
  | String c src' =>
      match decodeMap c with
      | Some out =>
          if (length dbuf =? 3)%nat then (src', S si, convert (dbuf ++ [out]) 4, None)
          else decodeQuantum src' (S si) (dbuf ++ [out])
      | None =>
          if is_newline c then decodeQuantum src' (S si) dbuf
          else if negb (Ascii.eqb c "=") then (src', S si, [], Some (CorruptInputError si))
          else
            match length dbuf with
            | 0%nat | 1%nat => (src', S si, [], Some (CorruptInputError si))
            | j =>
                let after_pad :=
                  if (j =? 2)%nat then
                    match skip_newlines src' (S si) with
                    | (EmptyString, si') =>
                        inl (EmptyString, si', Some (CorruptInputError si'))
                    | (String d rest as here, si') =>
                        if Ascii.eqb d "=" then inr (rest, S si')
                        else inl (here, si', Some (CorruptInputError (si' - 1)))
                    end
                  else inr (src', S si) in
                match after_pad with
                | inl (rest, si', err) => (rest, si', [], err)
                | inr (rest, si') =>
                    let '(rest, si') := skip_newlines rest si' in
                    (rest, si', convert dbuf j,
                     match rest with
                     | EmptyString => None
                     | _ => Some (CorruptInputError si')
                     end)
                end
            end
      end
  end.

(** The loop of [Decode]: quantum after quantum until the end or an error. *)
Fixpoint Decode (fuel : nat) (src : string) (si : nat) : bytes * error :=
  match fuel, src with
  | _, EmptyString => ([], None)
  | O, _ => ([], None)
  | S fuel', _ =>
      match decodeQuantum src si [] with
      | (_, _, out, Some err) => (out, Some err)
      | (rest, si', out, None) =>
          let '(more, err) := Decode fuel' rest si' in ((out ++ more)%list, err)
      end
  end.

Definition DecodeString (s : string) : bytes * error :=
  Decode (S (String.length s)) s 0.

End base64.

(** ** A test bench

    The parsers modelled above, and test doubles for the certificate and
    signature primitives: the bench's certificate store maps a one-byte
    encoding to a certificate, its digest is the body itself and a signature
    verifies when it equals the digest. A request of the bench refers to the
    reader at address 0, whose state the world of the bench holds. *)

Module Bench.

Definition certURL : string := "https://s3.amazonaws.com/echo.api/echo-api-cert.pem".

Definition at_second (s : Z) : time.Time := time.mkTime s 0.

Definition commonName (s : string) : pkix.AttributeTypeAndValue :=
  pkix.mkAttr [2; 5; 4; 3] (pkix.StringValue s).

Definition key : x509.AnyPublicKey := x509.RSAKey (rsa.mkPublicKey 3233 17).

(** Valid from second 1000 to second 2000, named in the subject and in the
    alternative names. *)
Definition cert_amazon : x509.Certificate :=
  x509.mkCertificate (at_second 1000) (at_second 2000)
    (pkix.mkName [commonName "echo-api.amazon.com"]) ["echo-api.amazon.com"] key.

(** Named in the subject only: no alternative name at all. *)
Definition cert_subject_only : x509.Certificate :=
  x509.mkCertificate (at_second 1000) (at_second 2000)
    (pkix.mkName [commonName "echo-api.amazon.com"]) [] key.

(** Named in the alternative names only. *)
Definition cert_alt_name_only : x509.Certificate :=
  x509.mkCertificate (at_second 1000) (at_second 2000)
    (pkix.mkName [commonName "example.com"]) ["echo-api.amazon.com"] key.

(** As [cert_amazon], with an elliptic-curve key. *)
Definition cert_ecdsa : x509.Certificate :=
  x509.mkCertificate (at_second 1000) (at_second 2000)
    (pkix.mkName [commonName "echo-api.amazon.com"]) ["echo-api.amazon.com"]
    (x509.ECDSAKey "P-256" 1 2).

Definition parseCertificate (der : bytes) : string + x509.Certificate :=
  match der with
  | [Byte.x01] => inr cert_amazon
  | [Byte.x02] => inr cert_subject_only
  | [Byte.x03] => inr cert_alt_name_only
  | [Byte.x04] => inr cert_ecdsa
  | _ => inl "asn1: structure error: tags don't match"
  end.

Definition decodePEM (contents : bytes) : option pem.Block :=
  match contents with
  | [] => None
  | _ => Some (pem.mkBlock "CERTIFICATE" contents)
  end.

Fixpoint bytes_eqb (a b : bytes) : bool :=
  match a, b with
  | [], [] => true
  | x :: a', y :: b' => Byte.eqb x y && bytes_eqb a' b'
  | _, _ => false
  end.

Definition verify (k : rsa.PublicKey) (hashed sig : bytes) : error :=
  if bytes_eqb hashed sig then None else Some "crypto/rsa: verification error".

Definition fresh_request : EchoRequest := mkEchoRequest (Some (at_second 1400)) "app-1".
Definition stale_request : EchoRequest := mkEchoRequest (Some (at_second 1300)) "app-1".
Definition early_request : EchoRequest := mkEchoRequest (Some (at_second 1700)) "app-1".

Definition decodeJSON (body : io.Stream) : (string + option EchoRequest) * io.Stream :=
  (match io.failure body with
   | Some e => inl e
   | None =>
       match io.data body with
       | [Byte.x7b; Byte.x31; Byte.x7d] => inr (Some fresh_request)    (* {1} *)
       | [Byte.x7b; Byte.x32; Byte.x7d] => inr (Some stale_request)    (* {2} *)
       | [Byte.x7b; Byte.x33; Byte.x7d] => inr (Some early_request)    (* {3} *)
       | [Byte.x6e; Byte.x75; Byte.x6c; Byte.x6c] => inr None          (* null *)
       | _ => inl "invalid character"
       end
   end, io.drained body).

#[local] Instance lib : GoLib := {|
  url_Parse := neturl.Parse;
  url_ParseQuery := neturl.ParseQuery;
  textproto_CanonicalMIMEHeaderKey := textproto.CanonicalMIMEHeaderKey;
  pem_Decode := decodePEM;
  x509_ParseCertificate := parseCertificate;
  base64_DecodeString := base64.DecodeString;
  sha1_Sum := fun body => body;
  rsa_VerifyPKCS1v15 := verify;
  json_Decode := decodeJSON
|}.

(** The client that the constructor builds without options on a platform
    with one root certificate. *)
Definition client : http.Client :=
  http.mkClient 5000000000 (tls.mkConfig (Some [[Byte.x01]]) false).

Definition validator : RequestValidator :=
  mkRequestValidator (Some client) false 5000000000.

(** The zero value [RequestValidator{}]. *)
Definition zero_validator : RequestValidator := mkRequestValidator None false 0.

(** A POST to [/echo/hello?query] with the two signature headers; its body
    is the reader at address 0. *)
Definition request (query chainURL signature : string) : http.Request :=
  http.mkRequest
    (url.mkURL "" "" "" "/echo/hello" query "")
    (<["Signaturecertchainurl" := [chainURL]]> (<["Signature" := [signature]]> ∅))
    0%nat
    None.

(** The body "ABCD" and its signature on the bench, "QUJDRA==" in base64. *)
Definition body : bytes := [Byte.x41; Byte.x42; Byte.x43; Byte.x44].
Definition signed : http.Request := request "" certURL "QUJDRA==".

(** A world whose clock stands at [now], whose network serves [der] at
    [certURL] and nothing else, and in which the reader at address 0 is in the
    state [s]. *)
Definition world_at (now : time.Time) (der : bytes) (s : io.Stream) : World :=
  mkWorld [] (fun _ => now) 0
    (fun _ _ u => if String.eqb u certURL then inr (io.mkStream der None)
                  else inl ("Get " ++ u ++ ": dial tcp: lookup failed"))
    0 [s]
    (<["/echo/hello" := EchoApplication "app-1"]> ∅).

(** The same at second [now], the reader at address 0 holding [body]. *)
Definition world (now : Z) (der : bytes) (body : bytes) : World :=
  world_at (at_second now) der (io.mkStream body None).

(** A world in which every fetch fails. *)
Definition offline (now : Z) (body : bytes) : World :=
  mkWorld [] (fun _ => at_second now) 0
    (fun _ _ u => inl ("Get " ++ u ++ ": net/http: request canceled (Client.Timeout exceeded)"))
    0 [io.mkStream body None]
    (<["/echo/hello" := EchoApplication "app-1"]> ∅).

(** The handler at the end of the chain. *)
Definition downstream (req : http.Request) : M unit := emit (EvLog "handled").

(** The comparison of application ids on the bench. *)
Definition verifyAppID (echoReq : EchoRequest) (appID : string) : bool :=
  String.eqb (application_id echoReq) appID.

End Bench.

(** ** The rest of the package: context lookup, construction, dispatch *)

Definition missing_context : string :=
  "interface conversion: interface {} is nil, not *skillserver.EchoRequest".

(** Source lines 240-244: the context value under the key ["echoRequest"],
    asserted to be an [*EchoRequest]; without one the assertion panics. *)
Definition GetEchoRequest (r : http.Request) : Outcome EchoRequest :=
  match http.echoRequest r with
  | Some echoReq => Ret echoReq
  | None => Panic missing_context
  end.

(** The answers among some events: the calls of [http.Error]. *)
Definition is_answer (e : Event) : bool :=
  match e with EvHTTPError _ _ => true | _ => false end.

(** The calls of [Get] among some events. *)
Definition is_fetch (e : Event) : bool :=
  match e with EvGet _ => true | _ => false end.

(** The verdict of a run of the gate: the boolean it returns, or its panic. *)
Definition verdict (o : Outcome (bool * http.Request)) : Outcome bool :=
  match o with
  | Ret (b, _) => Ret b
  | Panic msg => Panic msg
  end.

(** How a middleware handler ends: it returns without calling [next], it
    panics, or it ends in the call of [next] on a request. *)
Inductive Handover :=
| Answered (w : World)
| Panicked (msg : string) (w : World)
| Forwarded (req : http.Request) (w : World).

Definition hand_over (h : Handover) (next : http.Request -> M unit)
  : Outcome unit * World :=
  match h with
  | Answered w => (Ret tt, w)
  | Panicked msg w => (Panic msg, w)
  | Forwarded req w => next req w
  end.

(** Source line 288: an option mutates the validator it is given. *)
Definition RequestValidatorOption := RequestValidator -> RequestValidator.

(** Source lines 290-294. *)
Definition WithRequestValidatorTimeout (t : Z) : RequestValidatorOption :=
  fun r => mkRequestValidator (client r) (insecureSkipVerify r) t.

(** Source lines 296-300. *)
Definition WithInsecureSkipVerify (b : bool) : RequestValidatorOption :=
  fun r => mkRequestValidator (client r) b (timeout r).

(** What the constructor asks of the platform: [runtime.GOOS] and the result
    of [x509.SystemCertPool()], an error or a pool pointer ([None] for nil). *)
Record Platform := mkPlatform {
  GOOS : string;
  SystemCertPool : string + option tls.CertPool
}.

(** Source lines 302-336. The pool is loaded except under windows; the
    options run in order on a validator with a timeout of five seconds; the
    transport is configured from the validator as the options left it, and
    the client is built unless an option has set one. The result is the error
    or the validator; beside an error the source returns the zero value
    [RequestValidator{}], which has no client. *)
Definition NewRequestValidator (p : Platform) (options : list RequestValidatorOption)
  : string + RequestValidator :=
  let loaded :=
    if negb (String.eqb (GOOS p) "windows") then
      match SystemCertPool p with
      | inl err => inl ("can't open system cert pool: " ++ err)
      | inr None => inl "certpool is empty"
      | inr (Some pool) => inr (Some pool)
      end
    else inr None in
  match loaded with
  | inl err => inl err
  | inr certPool =>
      let r := fold_left (fun r option => option r) options
                 (mkRequestValidator None false (time.Second * 5)) in
      let tr := tls.mkConfig certPool (insecureSkipVerify r) in
      match client r with
      | None =>
          inr (mkRequestValidator (Some (http.mkClient (timeout r) tr))
                 (insecureSkipVerify r) (timeout r))
      | Some _ => inr r
      end
  end.

(** The options that the package provides. *)
Inductive provided : RequestValidatorOption -> Prop :=
| provided_timeout (t : Z) : provided (WithRequestValidatorTimeout t)
| provided_insecure (b : bool) : provided (WithInsecureSkipVerify b).

(** Source lines 70-72. *)
Record configurator := mkConfigurator {
  requestValidatorOptions : list RequestValidatorOption
}.

(** Source line 86: an option mutates the configurator it is given. *)
Definition Option_ := configurator -> configurator.

(** Source lines 80-84. *)
Definition apply (c : configurator) (options : list Option_) : configurator :=
  fold_left (fun c option => option c) options c.

(** Source lines 74-78. *)
Definition newConfigurator (options : list Option_) : configurator :=
  apply (mkConfigurator []) options.

(** Source lines 88-92. *)
Definition WithRequestValidatorOptions (option : RequestValidatorOption) : Option_ :=
  fun c => mkConfigurator (requestValidatorOptions c ++ [option])%list.

(** A call on the [http.ResponseWriter] other than through [http.Error]. *)
Inductive WriterCall :=
| HeaderSet (key value : string)
| BodyWrite (b : bytes).

Section Dispatch.
(** [EchoResponse], its constructor and its JSON encoding, and the accessor
    [GetRequestType] of [*EchoRequest], are in files of the package that are
    not among the sources. *)
Context {EchoResponse : Type}.
Variable GetRequestType : EchoRequest -> string.
Variable NewEchoResponse : EchoResponse.
Variable EchoResponse_String : EchoResponse -> bytes * error.

(** A callback receives the request and the response it may change. *)
Definition Callback := EchoRequest -> EchoResponse -> M EchoResponse.

(** The struct [EchoApplication] of source lines 32-39; [None] is a nil
    function. A [Handler] returns the calls it made on the writer. *)
Record EchoApp := mkEchoApp {
  AppID : string;
  Handler : option (http.Request -> M (list WriterCall));
  OnLaunch : option Callback;
  OnIntent : option Callback;
  OnSessionEnded : option Callback;
  OnAudioPlayerState : option Callback
}.

(** [if f != nil { f(echoReq, echoResp) }]. *)
Definition call_if_set (f : option Callback) (echoReq : EchoRequest)
  (echoResp : EchoResponse) : M EchoResponse :=
  match f with
  | Some callback => callback echoReq echoResp
  | None => ret echoResp
  end.

(** Source lines 180-211: the handler registered for an [EchoApplication]. *)
Definition handlerFunc (app : EchoApp) (r : http.Request) : M (list WriterCall) :=
  match Handler app with
  | Some handler => handler r
  | None =>
      echoReq <- lift (GetEchoRequest r) ;;
      let echoResp := NewEchoResponse in
      echoResp <-
        (if String.eqb (GetRequestType echoReq) "LaunchRequest" then
           call_if_set (OnLaunch app) echoReq echoResp
         else if String.eqb (GetRequestType echoReq) "IntentRequest" then
           call_if_set (OnIntent app) echoReq echoResp
         else if String.eqb (GetRequestType echoReq) "SessionEndedRequest" then
           call_if_set (OnSessionEnded app) echoReq echoResp
         else if strings_HasPrefix (GetRequestType echoReq) "AudioPlayer." then
           call_if_set (OnAudioPlayerState app) echoReq echoResp
         else
           emit (EvHTTPError "Invalid request." 400) ;; ret echoResp) ;;
      let json := fst (EchoResponse_String echoResp) in
      ret [HeaderSet "Content-Type" "application/json;charset=UTF-8"; BodyWrite json]
  end.
End Dispatch.

(** ** More of the test bench *)

Module Fixtures.

(** A platform other than windows with one root certificate. *)
Definition linux : Platform := mkPlatform "linux" (inr (Some [[Byte.x01]])).

(** The body {1}, which the bench decodes to a request with a fresh
    timestamp, and its signature "ezF9". *)
Definition json : bytes := [Byte.x7b; Byte.x31; Byte.x7d].

Definition fresh (query : string) : http.Request :=
  Bench.request query Bench.certURL "ezF9".

(** The same request as [verifyJSON] passes it on. *)
Definition decoded : http.Request :=
  http.with_echoRequest (fresh "") Bench.fresh_request.

(** A world in which the path of the bench belongs to another application. *)
Definition other_application : World :=
  mkWorld [] (fun _ => Bench.at_second 1500) 0
    (fun _ _ u => inl ("Get " ++ u ++ ": dial tcp: lookup failed"))
    0 [io.mkStream json None]
    (<["/echo/hello" := EchoApplication "app-2"]> ∅).

(** A world in which the path of the bench is a page, not a skill. *)
Definition page_only : World :=
  mkWorld [] (fun _ => Bench.at_second 1500) 0
    (fun _ _ u => inl ("Get " ++ u ++ ": dial tcp: lookup failed"))
    0 [io.mkStream json None]
    (<["/echo/hello" := StdApplication "GET"]> ∅).

(** A response is the text to speak; its JSON is the text itself. *)
Definition encode (resp : string) : bytes * error :=
  (list_byte_of_string resp, None).

(** Every request is an intent. *)
Definition requestType (echoReq : EchoRequest) : string := "IntentRequest".


Definition onIntent (echoReq : EchoRequest) (resp : string) : M string :=
  emit (EvLog "intent") ;; ret ("hello " ++ application_id echoReq).

Definition skill : EchoApp :=
  mkEchoApp "app-1" None None (Some onIntent) None None.

End Fixtures.

(** * Properties *)

(** ** Strings, events and worlds *)

Lemma HasPrefix_spec (s prefix : string) :
  strings_HasPrefix s prefix = true <-> exists rest, s = prefix ++ rest.
Proof.
  unfold strings_HasPrefix. revert s.
  induction prefix as [| a prefix IH]; intros s.
  - split; [intros _; exists s; reflexivity | intros _; destruct s; reflexivity].
  - destruct s as [| b s]; simpl.
    + split; [discriminate | intros [rest Hrest]; discriminate Hrest].
    + destruct (ascii_dec a b) as [-> | Hne].
      * rewrite IH.
        split; intros [rest Hrest]; exists rest.
        -- now rewrite Hrest.
        -- now injection Hrest.
      * split; [discriminate | intros [rest Hrest]; injection Hrest; congruence].
Qed.

Lemma observe_observe (a b : list Event) (w : World) :
  observe b (observe a w) = observe (a ++ b) w.
Proof. unfold observe; simpl. now rewrite app_assoc. Qed.

Lemma trace_observe (evs : list Event) (w : World) :
  trace (observe evs w) = (trace w ++ evs)%list.
Proof. reflexivity. Qed.

Lemma trace_tick (w : World) : trace (tick w) = trace w.
Proof. reflexivity. Qed.

Lemma trace_next_fetch (w : World) : trace (next_fetch w) = trace w.
Proof. reflexivity. Qed.

Lemma trace_store (rs : list io.Stream) (w : World) : trace (store rs w) = trace w.
Proof. reflexivity. Qed.

Lemma events_since_app (w w' : World) (evs : list Event) :
  trace w' = (trace w ++ evs)%list -> events_since w w' = evs.
Proof.
  intros Hext. unfold events_since. rewrite Hext.
  rewrite skipn_app, skipn_all, Nat.sub_diag. reflexivity.
Qed.

Lemma events_since_refl (w : World) : events_since w w = [].
Proof. unfold events_since. apply skipn_all. Qed.

Lemma HTTPError_run (logMsg err : string) (errCode : Z) (w : World) :
  HTTPError logMsg err errCode w = (Ret tt, observe (rejection logMsg err errCode) w).
Proof.
  unfold HTTPError, rejection, bind, emit, ret.
  destruct (String.eqb logMsg ""); simpl; [reflexivity |].
  now rewrite observe_observe.
Qed.

(** Two worlds built from the same one by [observe], [tick], [next_fetch]
    and [store] are equal when their fields are. *)
Ltac same_world :=
  unfold rejection;
  repeat match goal with |- context [String.eqb ?a ""] => destruct (String.eqb a "") end;
  unfold observe, tick, next_fetch, store;
  cbn [trace clock ticks remote fetches readers applications app];
  rewrite <- ?app_assoc; cbn [app]; rewrite ?length_insert; reflexivity.

(** The events of a world built from [w] by these operations. *)
Ltac trace_of_world :=
  rewrite ?trace_observe, ?trace_tick, ?trace_next_fetch, ?trace_store,
          ?trace_observe, ?trace_tick, ?trace_next_fetch, ?trace_store,
          ?trace_observe, ?trace_tick, ?trace_next_fetch, ?trace_store,
          ?trace_observe, ?trace_tick, ?trace_next_fetch, ?trace_store,
          <- ?app_assoc;
  reflexivity.

Ltac events_in H := erewrite events_since_app in H; [| trace_of_world].

Ltac events_goal := erewrite events_since_app; [| trace_of_world].

Lemma not_in_rejection (hashed sig : bytes) (logMsg err : string) (code : Z) :
  ~ In (EvVerifyPKCS1v15 hashed sig) (rejection logMsg err code).
Proof.
  unfold rejection. destruct (String.eqb logMsg ""); simpl; intuition discriminate.
Qed.

Lemma filter_answer_rejection (logMsg err : string) (code : Z) :
  filter is_answer (rejection logMsg err code) = [EvHTTPError err code].
Proof. unfold rejection. destruct (String.eqb logMsg ""); reflexivity. Qed.

Lemma filter_fetch_rejection (logMsg err : string) (code : Z) :
  filter is_fetch (rejection logMsg err code) = [].
Proof. unfold rejection. destruct (String.eqb logMsg ""); reflexivity. Qed.

(** ** The certificate URL validator *)

Section CertURLProperties.
Context {lib : GoLib}.

(** A string that [url.Parse] refuses makes the validator panic. *)
Lemma verifyCertURL_nil_link (path : string) :
  url_Parse path = None -> verifyCertURL path = Panic nil_dereference.
Proof. intros Hnil. unfold verifyCertURL. now rewrite Hnil. Qed.

Lemma verifyCertURL_parsed (path : string) (link : url.URL) :
  url_Parse path = Some link ->
  verifyCertURL path =
    Ret (String.eqb (url.Scheme link) "https"
         && (String.eqb (url.Host link) "s3.amazonaws.com"
             || String.eqb (url.Host link) "s3.amazonaws.com:443")
         && strings_HasPrefix (url.Path link) "/echo.api/").
Proof.
  intros Hlink. unfold verifyCertURL. rewrite Hlink.
  destruct (String.eqb (url.Scheme link) "https"); [| reflexivity].
  destruct (String.eqb (url.Host link) "s3.amazonaws.com"),
           (String.eqb (url.Host link) "s3.amazonaws.com:443"),
           (strings_HasPrefix (url.Path link) "/echo.api/"); reflexivity.
Qed.

(** A panic of the validator is the nil dereference on a string that
    [url.Parse] refuses. *)
Lemma verifyCertURL_panic (path msg : string) :
  verifyCertURL path = Panic msg -> msg = nil_dereference /\ url_Parse path = None.
Proof.
  destruct (url_Parse path) as [link |] eqn:Hlink.
  - rewrite (verifyCertURL_parsed path link Hlink). discriminate.
  - rewrite (verifyCertURL_nil_link path Hlink). intros [= <-]. now split.
Qed.

(** C2. [verifyCertURL] returns true exactly when the string parses as a
    URL whose scheme is "https", whose host is "s3.amazonaws.com" or
    "s3.amazonaws.com:443", and whose path starts with "/echo.api/"; for every
    other string that parses as a URL it returns false. *)
Theorem verifyCertURL_accepts_iff (path : string) :
  (verifyCertURL path = Ret true <->
     exists link,
       url_Parse path = Some link /\
       url.Scheme link = "https" /\
       (url.Host link = "s3.amazonaws.com" \/ url.Host link = "s3.amazonaws.com:443") /\
       (exists rest, url.Path link = "/echo.api/" ++ rest)) /\
  (forall link,
     url_Parse path = Some link ->
     ~ (url.Scheme link = "https" /\
        (url.Host link = "s3.amazonaws.com" \/ url.Host link = "s3.amazonaws.com:443") /\
        (exists rest, url.Path link = "/echo.api/" ++ rest)) ->
     verifyCertURL path = Ret false).
Proof.
  assert (Hparsed : forall link, url_Parse path = Some link ->
            (verifyCertURL path = Ret true <->
               url.Scheme link = "https" /\
               (url.Host link = "s3.amazonaws.com" \/
                url.Host link = "s3.amazonaws.com:443") /\
               (exists rest, url.Path link = "/echo.api/" ++ rest)) /\
            (verifyCertURL path = Ret true \/ verifyCertURL path = Ret false)).
  { intros link Hlink. rewrite (verifyCertURL_parsed path link Hlink).
    rewrite <- HasPrefix_spec.
    destruct (String.eqb_spec (url.Scheme link) "https") as [Hs | Hs];
      destruct (String.eqb_spec (url.Host link) "s3.amazonaws.com") as [Hh | Hh];
      destruct (String.eqb_spec (url.Host link) "s3.amazonaws.com:443") as [Hp | Hp];
      destruct (strings_HasPrefix (url.Path link) "/echo.api/") eqn:Hpre;
      simpl; (split; [split | auto]);
      try (intros _; now auto);
      try discriminate;
      intros (Hs' & [Hh' | Hh'] & Hpre'); congruence. }
  split; [split |].
  - intros Htrue. destruct (url_Parse path) as [link |] eqn:Hlink.
    + exists link. split; [reflexivity |]. now apply (Hparsed link).
    + rewrite (verifyCertURL_nil_link path Hlink) in Htrue. discriminate.
  - intros (link & Hlink & Hconds). now apply (Hparsed link).
  - intros link Hlink Hnot. destruct (Hparsed link Hlink) as [Hiff [Htrue | Hfalse]].
    + now apply Hiff in Htrue.
    + exact Hfalse.
Qed.

(** Whatever the string, the validator returns a boolean exactly when
    [url.Parse] accepted the string. *)
Lemma verifyCertURL_returns_iff (path : string) :
  (exists b, verifyCertURL path = Ret b) <-> (exists link, url_Parse path = Some link).
Proof.
  split.
  - intros [b Hb]. destruct (url_Parse path) as [link |] eqn:Hlink; [now exists link |].
    rewrite (verifyCertURL_nil_link path Hlink) in Hb. discriminate.
  - intros [link Hlink]. rewrite (verifyCertURL_parsed path link Hlink). eauto.
Qed.

End CertURLProperties.

Lemma verifyCertURL_accepts_iff_witness :
  verifyCertURL (lib := Bench.lib) Bench.certURL = Ret true /\
  verifyCertURL (lib := Bench.lib) "http://s3.amazonaws.com/echo.api/echo-api-cert.pem"
    = Ret false.
Proof.
  split.
  - apply (verifyCertURL_accepts_iff (lib := Bench.lib) Bench.certURL).
    exists (url.mkURL "https" "" "s3.amazonaws.com" "/echo.api/echo-api-cert.pem" "" "").
    split; [reflexivity |]. split; [reflexivity |].
    split; [now left | now exists "echo-api-cert.pem"].
  - apply (verifyCertURL_accepts_iff (lib := Bench.lib)
             "http://s3.amazonaws.com/echo.api/echo-api-cert.pem")
      with (link := url.mkURL "http" "" "s3.amazonaws.com"
                      "/echo.api/echo-api-cert.pem" "" "").
    + reflexivity.
    + intros [Hscheme _]. discriminate Hscheme.
Defined.

(** The validator on concrete strings. The parser lower-cases the scheme,
    splits off user information and unescapes the path before the validator
    reads them; it leaves the host and dot segments alone. *)
Example verifyCertURL_on_examples :
  map (verifyCertURL (lib := Bench.lib))
    ["https://s3.amazonaws.com/echo.api/echo-api-cert.pem";
     "https://s3.amazonaws.com:443/echo.api/echo-api-cert.pem";
     "https://s3.amazonaws.com/echo.api/../echo.api/echo-api-cert.pem";
     "HTTPS://s3.amazonaws.com/echo.api/echo-api-cert.pem";
     "https://user@s3.amazonaws.com/%65cho.api/echo-api-cert.pem";
     "http://s3.amazonaws.com/echo.api/echo-api-cert.pem";
     "https://notamazon.com/echo.api/echo-api-cert.pem";
     "https://S3.amazonaws.com/echo.api/echo-api-cert.pem";
     "https://s3.amazonaws.com/EcHo.aPi/echo-api-cert.pem";
     "https://s3.amazonaws.com/invalid.path/echo-api-cert.pem";
     "https://s3.amazonaws.com:563/echo.api/echo-api-cert.pem";
     "https://s3.amazonaws.com/echo.api";
     "";
     ":";
     "https://s3.amazonaws.com:443x/echo.api/"]
  = [Ret true; Ret true; Ret true; Ret true; Ret true;
     Ret false; Ret false; Ret false; Ret false; Ret false; Ret false; Ret false;
     Ret false; Panic nil_dereference; Panic nil_dereference].
Proof. vm_compute. reflexivity. Qed.

(** C4. The validator is not total: on a certificate URL whose path holds an
    invalid escape, [url.Parse] returns a nil URL with its error, the error is
    dropped, and the read of the scheme panics; so does the gate that calls
    the validator, before it has written any response. *)
Theorem verifyCertURL_panics_on_unparsable :
  neturl.Parse "https://s3.amazonaws.com/echo.api/%zz" = None /\
  verifyCertURL (lib := Bench.lib) "https://s3.amazonaws.com/echo.api/%zz"
    = Panic nil_dereference /\
  IsValidAlexaRequest (lib := Bench.lib) Bench.validator
      (Bench.request "" "https://s3.amazonaws.com/echo.api/%zz" "QUJDRA==")
      (Bench.offline 1500 Bench.body)
    = (Panic nil_dereference, Bench.offline 1500 Bench.body).
Proof. repeat split; vm_compute; reflexivity. Qed.

(** ** The development bypass *)

Section Bypass.
Context {lib : GoLib}.

(** C10. When the query of the request carries a non-empty [_dev] value
    (the value that [req.URL.Query().Get] returns), [validateRequest] is the
    next handler applied to the untouched request: nothing of the gate runs,
    no validation of the certificate URL, no fetch, no parsing, no signature
    verification. *)
Theorem validateRequest_dev_bypass (r : RequestValidator) (req : http.Request)
  (next : http.Request -> M unit) :
  url.Get (URL_Query (http.URL req)) "_dev" <> "" ->
  validateRequest r req next = next req.
Proof.
  intros Hdev. unfold validateRequest. cbv zeta.
  destruct (String.eqb_spec (url.Get (URL_Query (http.URL req)) "_dev") "") as [Heq | _].
  - contradiction.
  - reflexivity.
Qed.

End Bypass.

Lemma validateRequest_dev_bypass_witness :
  url.Get (URL_Query (lib := Bench.lib) (http.URL (Bench.request "_dev=1" ":" ""))) "_dev"
    = "1" /\
  validateRequest (lib := Bench.lib) Bench.validator
      (Bench.request "_dev=1" ":" "") Bench.downstream
    = Bench.downstream (Bench.request "_dev=1" ":" "").
Proof.
  split; [vm_compute; reflexivity |].
  apply (validateRequest_dev_bypass (lib := Bench.lib)).
  vm_compute. discriminate.
Defined.

(** ** The certificate checks *)

Lemma certDateInvalid_run (cert : x509.Certificate) (w : World) :
  certDateInvalid cert w =
    if (time.Unix (clock w (ticks w)) <? time.Unix (x509.NotBefore cert))%Z
    then (Ret true, tick w)
    else (Ret (time.Unix (clock w (S (ticks w))) >? time.Unix (x509.NotAfter cert))%Z,
          tick (tick w)).
Proof.
  unfold certDateInvalid, bind, time_Now, ret.
  destruct (time.Unix (clock w (ticks w)) <? time.Unix (x509.NotBefore cert))%Z; reflexivity.
Qed.

Lemma certDateInvalid_trace (cert : x509.Certificate) (w : World) :
  trace (snd (certDateInvalid cert w)) = trace w /\
  exists bad, fst (certDateInvalid cert w) = Ret bad.
Proof.
  rewrite certDateInvalid_run.
  destruct (time.Unix (clock w (ticks w)) <? time.Unix (x509.NotBefore cert))%Z;
    simpl; eauto.
Qed.

Lemma foundName_fold (names : list pkix.AttributeTypeAndValue) (found : bool) :
  fold_left
    (fun found altName =>
       if pkix.value_eq_string (pkix.Value altName) "echo-api.amazon.com"
       then true else found)
    names found
  = found || existsb (fun a => pkix.value_eq_string (pkix.Value a) "echo-api.amazon.com") names.
Proof.
  revert found. induction names as [| a names IH]; intros found; simpl.
  - now rewrite orb_false_r.
  - rewrite IH.
    destruct (pkix.value_eq_string (pkix.Value a) "echo-api.amazon.com"), found; reflexivity.
Qed.

(** What the name check reads: a name passes when one attribute of the
    certificate's subject is the Go string "echo-api.amazon.com", by exact
    comparison; the alternative names are not consulted. *)
Lemma foundName_spec (names : list pkix.AttributeTypeAndValue) :
  foundName names = true <->
  exists a, In a names /\ pkix.Value a = pkix.StringValue "echo-api.amazon.com".
Proof.
  unfold foundName. rewrite foundName_fold. simpl. rewrite existsb_exists.
  split; intros (a & Hin & Ha); exists a; split; trivial.
  - destruct (pkix.Value a) as [s | raw]; simpl in Ha; [| discriminate].
    apply String.eqb_eq in Ha. now subst.
  - rewrite Ha. reflexivity.
Qed.

(** An instant that is not before another one is not in an earlier second. *)
Lemma not_Before_seconds (t u : time.Time) :
  time.well_formed t -> time.well_formed u ->
  time.Before t u = false -> time.Unix u <= time.Unix t.
Proof.
  unfold time.well_formed, time.Before, time.Sub, time.Unix, time.Second.
  intros Ht Hu Hcmp. apply Z.ltb_ge in Hcmp. nia.
Qed.

Lemma not_After_seconds (t u : time.Time) :
  time.well_formed t -> time.well_formed u ->
  time.After t u = false -> time.Unix t <= time.Unix u.
Proof.
  unfold time.well_formed, time.After, time.Sub, time.Unix, time.Second.
  intros Ht Hu Hcmp. rewrite Z.gtb_ltb in Hcmp. apply Z.ltb_ge in Hcmp. nia.
Qed.

Section DateCheck.
Context {lib : GoLib}.

(** C6, as amended. The date check compares whole Unix seconds and reads the
    clock once for each bound. It passes exactly when the second of the first
    reading is not before the second of not-before and the second of the
    second reading is not after the second of not-after, and fails exactly
    when one of them is. So every reading between not-before and not-after,
    the bounds included, passes, and a failure means a reading strictly before
    not-before or strictly after not-after; a failed check is answered
    401 "Amazon certificate expired.". The converse does not hold: a reading
    outside the bounds but in the same second as the bound passes. *)
Theorem certificate_date_check (cert : x509.Certificate) (request : http.Request)
  (w : World) :
  (fst (certDateInvalid cert w) = Ret false <->
     time.Unix (x509.NotBefore cert) <= time.Unix (clock w (ticks w)) /\
     time.Unix (clock w (S (ticks w))) <= time.Unix (x509.NotAfter cert)) /\
  (fst (certDateInvalid cert w) = Ret true <->
     time.Unix (clock w (ticks w)) < time.Unix (x509.NotBefore cert) \/
     time.Unix (x509.NotAfter cert) < time.Unix (clock w (S (ticks w)))) /\
  (time.well_formed (clock w (ticks w)) -> time.well_formed (clock w (S (ticks w))) ->
   time.well_formed (x509.NotBefore cert) -> time.well_formed (x509.NotAfter cert) ->
   (time.Before (clock w (ticks w)) (x509.NotBefore cert) = false ->
    time.After (clock w (S (ticks w))) (x509.NotAfter cert) = false ->
    fst (certDateInvalid cert w) = Ret false) /\
   (fst (certDateInvalid cert w) = Ret true ->
    time.Before (clock w (ticks w)) (x509.NotBefore cert) = true \/
    time.After (clock w (S (ticks w))) (x509.NotAfter cert) = true)) /\
  (fst (certDateInvalid cert w) = Ret true ->
     fst (validateCertificate cert request w) = Ret (false, request) /\
     events_since w (snd (validateCertificate cert request w))
       = [EvLog "Amazon certificate expired."; EvHTTPError "Not Authorized" 401]).
Proof.
  assert (Hpass : fst (certDateInvalid cert w) = Ret false <->
     time.Unix (x509.NotBefore cert) <= time.Unix (clock w (ticks w)) /\
     time.Unix (clock w (S (ticks w))) <= time.Unix (x509.NotAfter cert)).
  { rewrite certDateInvalid_run.
    destruct (Z.ltb_spec (time.Unix (clock w (ticks w))) (time.Unix (x509.NotBefore cert)));
      destruct (Z.gtb_spec (time.Unix (clock w (S (ticks w))))
                  (time.Unix (x509.NotAfter cert)));
      simpl; split; intros Hyp; try discriminate; try lia; reflexivity. }
  assert (Hfail : fst (certDateInvalid cert w) = Ret true <->
     time.Unix (clock w (ticks w)) < time.Unix (x509.NotBefore cert) \/
     time.Unix (x509.NotAfter cert) < time.Unix (clock w (S (ticks w)))).
  { rewrite certDateInvalid_run.
    destruct (Z.ltb_spec (time.Unix (clock w (ticks w))) (time.Unix (x509.NotBefore cert)));
      destruct (Z.gtb_spec (time.Unix (clock w (S (ticks w))))
                  (time.Unix (x509.NotAfter cert)));
      simpl; split; intros Hyp; try discriminate; try lia; reflexivity. }
  split; [exact Hpass |]. split; [exact Hfail |]. split.
  - intros Ht1 Ht2 Hnb Hna. split.
    + intros Hin1 Hin2. apply Hpass. split.
      * now apply not_Before_seconds.
      * now apply not_After_seconds.
    + intros Hbad. apply Hfail in Hbad.
      destruct (time.Before _ _) eqn:Hb; [now left |].
      destruct (time.After _ _) eqn:Ha; [now right |].
      apply not_Before_seconds in Hb; [| assumption..].
      apply not_After_seconds in Ha; [| assumption..].
      lia.
  - intros Hbad. unfold validateCertificate, bind.
    destruct (certDateInvalid_trace cert w) as [Htrace _].
    destruct (certDateInvalid cert w) as [[bad | msg] w1]; simpl in Hbad, Htrace;
      [| discriminate].
    injection Hbad as ->. rewrite HTTPError_run. unfold ret. cbn [fst snd].
    split; [reflexivity |].
    apply events_since_app. rewrite trace_observe, Htrace. reflexivity.
Qed.

End DateCheck.

(** C6, the claim as it is stated fails. On the bench certificate, whose
    not-after is second 2000 sharp, a clock that stands 999999999 nanoseconds
    later is strictly after not-after, and the date check passes all the same;
    the gate goes on to accept the request. *)
Lemma certificate_date_check_counterexample :
  time.After (time.mkTime 2000 999999999) (x509.NotAfter Bench.cert_amazon) = true /\
  fst (certDateInvalid Bench.cert_amazon
         (Bench.world_at (time.mkTime 2000 999999999) [Byte.x01]
            (io.mkStream Bench.body None)))
  = Ret false /\
  fst (IsValidAlexaRequest (lib := Bench.lib) Bench.validator Bench.signed
         (Bench.world_at (time.mkTime 2000 999999999) [Byte.x01]
            (io.mkStream Bench.body None)))
  = Ret (true, http.with_Body Bench.signed 1%nat).
Proof. repeat split; vm_compute; reflexivity. Qed.

Lemma certificate_date_check_witness :
  fst (certDateInvalid Bench.cert_amazon (Bench.world 2000 [Byte.x01] Bench.body))
  = Ret false.
Proof.
  destruct (certificate_date_check (lib := Bench.lib) Bench.cert_amazon Bench.signed
              (Bench.world 2000 [Byte.x01] Bench.body)) as (_ & _ & Hinstants & _).
  apply Hinstants; try (unfold time.well_formed; simpl; unfold time.Second; lia);
    reflexivity.
Defined.

(** The bounds on the bench certificate, valid from second 1000 to 2000. *)
Example date_check_at_bounds :
  map (fun now => fst (certDateInvalid Bench.cert_amazon
                         (Bench.world now [Byte.x01] Bench.body)))
      [999; 1000; 2000; 2001]
  = [Ret true; Ret false; Ret false; Ret true].
Proof. reflexivity. Qed.

(** C1. The name check does not read the subject alternative names. A
    certificate with no alternative name at all whose subject carries
    "echo-api.amazon.com" passes the check and the request is accepted; a
    certificate with that alternative name and another subject is answered
    401 "Amazon certificate invalid.". *)
Theorem name_check_reads_subject_not_alternative_names :
  x509.DNSNames Bench.cert_subject_only = [] /\
  foundName (pkix.Names (x509.Subject Bench.cert_subject_only)) = true /\
  fst (IsValidAlexaRequest (lib := Bench.lib) Bench.validator Bench.signed
         (Bench.world 1500 [Byte.x02] Bench.body))
    = Ret (true, http.with_Body Bench.signed 1%nat) /\
  In "echo-api.amazon.com" (x509.DNSNames Bench.cert_alt_name_only) /\
  foundName (pkix.Names (x509.Subject Bench.cert_alt_name_only)) = false /\
  fst (IsValidAlexaRequest (lib := Bench.lib) Bench.validator Bench.signed
         (Bench.world 1500 [Byte.x03] Bench.body)) = Ret (false, Bench.signed) /\
  trace (snd (IsValidAlexaRequest (lib := Bench.lib) Bench.validator Bench.signed
                (Bench.world 1500 [Byte.x03] Bench.body)))
    = [EvGet Bench.certURL; EvPemDecode [Byte.x03]; EvParseCertificate [Byte.x03];
       EvLog "Amazon certificate invalid."; EvHTTPError "Not Authorized" 401].
Proof.
  repeat split; try (vm_compute; reflexivity).
  simpl. now left.
Qed.

(** Whatever the subject alternative names of the certificate, the checks on
    it run the same. *)
Lemma validateCertificate_ignores_alternative_names {lib : GoLib}
  (cert : x509.Certificate) (names : list string) (request : http.Request) :
  validateCertificate (x509.with_DNSNames cert names) request
  = validateCertificate cert request.
Proof. reflexivity. Qed.

(** C3. The signature stage can crash and can accept a signature header that
    is not valid base64. With a certificate whose key is not an RSA key the
    type assertion panics, and no response is written. With the header
    "QUJDRA==x" the decoder reports an error together with the four bytes it
    decoded; the error is dropped, the four bytes verify, and the request is
    accepted. *)
Theorem signature_stage_panics_or_accepts :
  IsValidAlexaRequest (lib := Bench.lib) Bench.validator Bench.signed
    (Bench.world 1500 [Byte.x04] Bench.body)
  = (Panic failed_assertion,
     store [io.mkStream [] None; io.mkStream Bench.body None]
       (tick (tick (next_fetch
          (observe [EvGet Bench.certURL; EvPemDecode [Byte.x04];
                    EvParseCertificate [Byte.x04]; EvBase64Decode "QUJDRA==";
                    EvSHA1 Bench.body]
             (Bench.world 1500 [Byte.x04] Bench.body)))))) /\
  base64.DecodeString "QUJDRA==x"
  = (Bench.body, Some "illegal base64 data at input byte 8") /\
  fst (IsValidAlexaRequest (lib := Bench.lib) Bench.validator
         (Bench.request "" Bench.certURL "QUJDRA==x")
         (Bench.world 1500 [Byte.x01] Bench.body))
  = Ret (true, http.with_Body (Bench.request "" Bench.certURL "QUJDRA==x") 1%nat).
Proof. repeat split; vm_compute; reflexivity. Qed.

(** ** Runs of the gate *)

Lemma readCert_run {lib : GoLib} (r : RequestValidator) (certURL : string) (w : World) :
  readCert r certURL w =
    match client r with
    | None => (Panic nil_dereference, w)
    | Some c =>
        (Ret match remote w c (fetches w) certURL with
             | inl err => inl ("could not download Amazon cert file: " ++ err)
             | inr body =>
                 match io.failure body with
                 | Some err => inl ("could not read Amazon cert file: " ++ err)
                 | None => inr (io.data body)
                 end
             end,
         next_fetch (observe [EvGet certURL] w))
    end.
Proof.
  unfold readCert, client_Get, bind, emit, ret, panic.
  destruct (client r) as [c |]; [| reflexivity].
  cbn [remote fetches observe].
  destruct (remote w c (fetches w) certURL) as [err | body]; [reflexivity |].
  unfold io.ReadAll. destruct (io.failure body); reflexivity.
Qed.

Section GateRuns.
Context {lib : GoLib}.

Lemma verifySignature_run (cert : x509.Certificate) (request : http.Request) (w : World) :
  verifySignature cert request w =
    let sigHeader := Header_Get (http.Header_ request) "Signature" in
    let encryptedSig := fst (base64_DecodeString sigHeader) in
    match readers w !! http.Body request with
    | None => (Panic nil_dereference, observe [EvBase64Decode sigHeader] w)
    | Some s =>
        let bodyBuf := io.data s in
        let spent := <[http.Body request := io.drained s]> (readers w) in
        let w1 := observe [EvBase64Decode sigHeader; EvSHA1 bodyBuf] w in
        match io.failure s with
        | Some e =>
            (Ret (false, request),
             store spent (observe (rejection e "Internal Error" 500) w1))
        | None =>
            let request' := http.with_Body request (length (readers w)) in
            let replayed := (spent ++ [io.mkStream bodyBuf None])%list in
            match x509.PublicKey cert with
            | x509.RSAKey k =>
                let w2 := observe [EvVerifyPKCS1v15 (sha1_Sum bodyBuf) encryptedSig] w1 in
                match rsa_VerifyPKCS1v15 k (sha1_Sum bodyBuf) encryptedSig with
                | Some _ =>
                    (Ret (false, request'),
                     store replayed
                       (observe (rejection "Signature match failed." "Not Authorized" 401)
                          w2))
                | None => (Ret (true, request'), store replayed w2)
                end
            | _ => (Panic failed_assertion, store replayed w1)
            end
        end
    end.
Proof.
  unfold verifySignature, read_to_end, ioutil_NopCloser, io.ReadAll, bind, emit, ret, panic.
  cbv zeta. cbn [readers observe].
  destruct (readers w !! http.Body request) as [s |]; [| reflexivity].
  destruct (io.failure s) as [e |].
  - rewrite HTTPError_run. f_equal. same_world.
  - cbn [readers store observe]. rewrite length_insert.
    destruct (x509.PublicKey cert) as [k | | |]; try (f_equal; same_world).
    destruct (rsa_VerifyPKCS1v15 k _ _); [rewrite HTTPError_run |]; f_equal; same_world.
Qed.

Lemma validateCertificate_run (cert : x509.Certificate) (request : http.Request) (w : World) :
  validateCertificate cert request w =
    match certDateInvalid cert w with
    | (Ret true, w1) =>
        (Ret (false, request),
         observe (rejection "Amazon certificate expired." "Not Authorized" 401) w1)
    | (Ret false, w1) =>
        if foundName (pkix.Names (x509.Subject cert)) then verifySignature cert request w1
        else (Ret (false, request),
              observe (rejection "Amazon certificate invalid." "Not Authorized" 401) w1)
    | (Panic msg, w1) => (Panic msg, w1)
    end.
Proof.
  unfold validateCertificate, bind.
  destruct (certDateInvalid cert w) as [[[|] | msg] w1]; cbv beta iota; try reflexivity.
  - unfold bind, ret. rewrite HTTPError_run. reflexivity.
  - destruct (foundName _); cbn [negb]; [reflexivity |].
    unfold bind, ret. rewrite HTTPError_run. reflexivity.
Qed.

Lemma IsValidAlexaRequest_run (r : RequestValidator) (request : http.Request) (w : World) :
  IsValidAlexaRequest r request w =
    let certURL := Header_Get (http.Header_ request) "SignatureCertChainUrl" in
    if insecureSkipVerify r then (Ret (true, request), w)
    else
      match verifyCertURL certURL with
      | Panic msg => (Panic msg, w)
      | Ret false =>
          (Ret (false, request),
           observe (rejection ("Invalid cert URL: " ++ certURL) "Not Authorized" 401) w)
      | Ret true =>
          match fst (readCert r certURL w) with
          | Panic msg => (Panic msg, w)
          | Ret (inl err) =>
              (Ret (false, request),
               next_fetch (observe (EvGet certURL :: rejection err "Not Authorized" 401) w))
          | Ret (inr certContents) =>
              match pem_Decode certContents with
              | None =>
                  (Ret (false, request),
                   next_fetch
                     (observe (EvGet certURL :: EvPemDecode certContents
                                 :: rejection "Failed to parse certificate PEM."
                                      "Not Authorized" 401) w))
              | Some block =>
                  match x509_ParseCertificate (pem.Bytes block) with
                  | inl err =>
                      (Ret (false, request),
                       next_fetch
                         (observe (EvGet certURL :: EvPemDecode certContents
                                     :: EvParseCertificate (pem.Bytes block)
                                     :: rejection err "Not Authorized" 401) w))
                  | inr cert =>
                      validateCertificate cert request
                        (next_fetch
                           (observe [EvGet certURL; EvPemDecode certContents;
                                     EvParseCertificate (pem.Bytes block)] w))
                  end
              end
          end
      end.
Proof.
  unfold IsValidAlexaRequest. cbv zeta.
  destruct (insecureSkipVerify r); [reflexivity |].
  unfold bind at 1. unfold lift.
  destruct (verifyCertURL _) as [[|] | msg]; cbn [negb]; try reflexivity.
  - unfold bind at 1. rewrite readCert_run.
    destruct (client r) as [c |]; [| reflexivity]. cbn [fst].
    destruct (remote w c _ _) as [err | body].
    + unfold bind, ret. rewrite HTTPError_run. f_equal. same_world.
    + destruct (io.failure body) as [err |].
      * unfold bind, ret. rewrite HTTPError_run. f_equal. same_world.
      * unfold bind at 1. unfold emit.
        destruct (pem_Decode (io.data body)) as [block |].
        -- unfold bind at 1.
           destruct (x509_ParseCertificate (pem.Bytes block)) as [err | cert].
           ++ unfold bind, ret. rewrite HTTPError_run. f_equal. same_world.
           ++ f_equal. same_world.
        -- unfold bind, ret. rewrite HTTPError_run. f_equal. same_world.
  - unfold bind, ret. rewrite HTTPError_run. reflexivity.
Qed.

Lemma readCert_reason (r : RequestValidator) (certURL reason : string) (w : World) :
  fst (readCert r certURL w) = Ret (inl reason) ->
  exists err,
    reason = "could not download Amazon cert file: " ++ err \/
    reason = "could not read Amazon cert file: " ++ err.
Proof.
  rewrite readCert_run. destruct (client r) as [c |]; [| discriminate]. cbn [fst].
  destruct (remote w c _ certURL) as [err | body].
  - intros [= <-]. exists err. now left.
  - destruct (io.failure body) as [err |]; [| discriminate].
    intros [= <-]. exists err. now right.
Qed.

End GateRuns.

(** Case analysis on a run [H : IsValidAlexaRequest r request w = (o, w')]:
    one goal for each exit of the function, with the outcome and the final
    world substituted. *)
Ltac gate_exits H r request w :=
  rewrite IsValidAlexaRequest_run in H; cbv zeta in H;
  destruct (insecureSkipVerify r) eqn:Hskip;
  [ | destruct (verifyCertURL (Header_Get (http.Header_ request) "SignatureCertChainUrl"))
        as [[|] | ?msg] eqn:Hurl;
      [ rewrite readCert_run in H;
        destruct (client r) as [?c |] eqn:Hclient;
        [ cbn [fst] in H;
          destruct (remote w c (fetches w)
                      (Header_Get (http.Header_ request) "SignatureCertChainUrl"))
            as [?err | ?body] eqn:Hremote;
          [ | destruct (io.failure body) as [?err |] eqn:Hfetched;
              [ | destruct (pem_Decode (io.data body)) as [?block |] eqn:Hpem;
                  [ destruct (x509_ParseCertificate (pem.Bytes block))
                      as [?err | ?cert] eqn:Hparse;
                    [ | rewrite validateCertificate_run, certDateInvalid_run in H;
                        cbn [clock ticks observe tick next_fetch] in H;
                        destruct (time.Unix (clock w (ticks w))
                                  <? time.Unix (x509.NotBefore cert))%Z eqn:Hearly;
                        [ | destruct (time.Unix (clock w (S (ticks w)))
                                      >? time.Unix (x509.NotAfter cert))%Z eqn:Hlate;
                            [ | destruct (foundName (pkix.Names (x509.Subject cert)))
                                  eqn:Hname;
                                [ rewrite verifySignature_run in H; cbv zeta in H;
                                  cbn [readers observe tick next_fetch] in H;
                                  destruct (readers w !! http.Body request)
                                    as [?s |] eqn:Hreader;
                                  [ destruct (io.failure s) as [?err |] eqn:Hbody;
                                    [ | destruct (x509.PublicKey cert)
                                          as [?k | ? ? ? | ? | ] eqn:Hkey;
                                        [ destruct (rsa_VerifyPKCS1v15 k _ _)
                                            as [?err |] eqn:Hverify | | | ] ]
                                  | ]
                                | ] ] ] ]
                  | ] ] ]
        | cbn [fst] in H ]
      | | ] ];
  inversion H; subst; clear H.

(** The readers once the body behind [a] has been read to its end and a new
    reader holds what was read. *)
Lemma spent_reader (rs : list io.Stream) (a : nat) (s s' fresh : io.Stream) :
  rs !! a = Some s ->
  (<[a := s']> rs ++ [fresh])%list !! a = Some s'.
Proof.
  intros Hs. apply lookup_lt_Some in Hs as Hlt.
  rewrite lookup_app_l by (now rewrite length_insert).
  now apply list_lookup_insert_eq.
Qed.

Lemma new_reader (rs : list io.Stream) (a : nat) (s' fresh : io.Stream) :
  (<[a := s']> rs ++ [fresh])%list !! length rs = Some fresh.
Proof.
  rewrite lookup_app_r by (rewrite length_insert; lia).
  now rewrite length_insert, Nat.sub_diag.
Qed.

Lemma other_reader (rs : list io.Stream) (a a' : nat) (s' fresh : io.Stream) :
  a' <> a -> (a' < length rs)%nat ->
  (<[a := s']> rs ++ [fresh])%list !! a' = rs !! a'.
Proof.
  intros Hne Hlt.
  rewrite lookup_app_l by (now rewrite length_insert).
  now apply list_lookup_insert_ne.
Qed.

Section GateProperties.
Context {lib : GoLib}.

(** C5. When the certificate URL is valid and the fetch fails, the gate
    returns false after exactly three events: the call of the client, the log
    line with the transport failure, and the 401 answer. No later stage runs:
    no digest of the body, no RSA verification, no reading of the clock; the
    request and the readers are left as they were. *)
Theorem fetch_failure_is_terminal (r : RequestValidator) (request : http.Request)
  (w : World) (reason : string) :
  insecureSkipVerify r = false ->
  verifyCertURL (Header_Get (http.Header_ request) "SignatureCertChainUrl") = Ret true ->
  fst (readCert r (Header_Get (http.Header_ request) "SignatureCertChainUrl") w)
    = Ret (inl reason) ->
  IsValidAlexaRequest r request w
    = (Ret (false, request),
       next_fetch
         (observe [EvGet (Header_Get (http.Header_ request) "SignatureCertChainUrl");
                   EvLog reason; EvHTTPError "Not Authorized" 401] w)) /\
  (exists err,
     reason = "could not download Amazon cert file: " ++ err \/
     reason = "could not read Amazon cert file: " ++ err) /\
  Forall (fun e => is_signature_event e = false)
    (events_since w (snd (IsValidAlexaRequest r request w))) /\
  ticks (snd (IsValidAlexaRequest r request w)) = ticks w /\
  readers (snd (IsValidAlexaRequest r request w)) = readers w.
Proof.
  intros Hskip Hurl Hfetch.
  destruct (readCert_reason _ _ _ _ Hfetch) as [err Hreason].
  assert (Hrun : IsValidAlexaRequest r request w
    = (Ret (false, request),
       next_fetch
         (observe [EvGet (Header_Get (http.Header_ request) "SignatureCertChainUrl");
                   EvLog reason; EvHTTPError "Not Authorized" 401] w))).
  { rewrite IsValidAlexaRequest_run. cbv zeta. rewrite Hskip, Hurl, Hfetch.
    unfold rejection.
    replace (String.eqb reason "") with false; [reflexivity |].
    destruct Hreason as [-> | ->]; reflexivity. }
  rewrite Hrun. cbn [snd].
  split; [reflexivity |]. split; [now exists err |].
  split; [| split; reflexivity].
  events_goal. repeat constructor.
Qed.

(** C8. Whenever a run of the gate reaches the RSA verification, the reader
    that the request came with was read to its end without error and is left
    drained; the digest that was verified is the digest of all the bytes it
    delivered; and the request leaves the gate pointing at another reader,
    which holds exactly those bytes: a consumer that reads the body of the
    returned request gets the bytes that were digested. *)
Theorem body_replayed_after_signature_check (r : RequestValidator)
  (request req' : http.Request) (w w' : World) (b : bool) (hashed sig : bytes) :
  IsValidAlexaRequest r request w = (Ret (b, req'), w') ->
  In (EvVerifyPKCS1v15 hashed sig) (events_since w w') ->
  exists s,
    readers w !! http.Body request = Some s /\
    io.failure s = None /\
    hashed = sha1_Sum (io.data s) /\
    In (EvSHA1 (io.data s)) (events_since w w') /\
    readers w' !! http.Body request = Some (io.mkStream [] None) /\
    http.Body req' <> http.Body request /\
    req' = http.with_Body request (http.Body req') /\
    readers w' !! http.Body req' = Some (io.mkStream (io.data s) None) /\
    fst (read_to_end (http.Body req') w') = Ret (io.data s, None).
Proof.
  intros Hrun Hin. gate_exits Hrun r request w;
    try (rewrite events_since_refl in Hin; destruct Hin);
    try (events_in Hin; unfold rejection in Hin;
         repeat match type of Hin with
                | context [String.eqb ?a ""] => destruct (String.eqb a "")
                end;
         cbn [app In] in Hin; intuition discriminate).
  all: events_in Hin; cbn [app In] in Hin;
    exists s; apply lookup_lt_Some in Hreader as Hlt;
    assert (Hnew : length (readers w) <> http.Body request) by lia;
    unfold read_to_end; cbn [readers store http.Body http.with_Body];
    rewrite (spent_reader _ _ _ _ _ Hreader), new_reader;
    unfold io.drained; rewrite Hbody;
    repeat split; try reflexivity; try assumption;
    [ repeat (destruct Hin as [Hin | Hin]; [try discriminate |]);
      first [ now injection Hin | now apply not_in_rejection in Hin | destruct Hin ]
    | events_goal; cbn [app In]; tauto ].
Qed.

Section JSONProperties.
Context {methods : EchoRequestMethods}.

Lemma verifyJSON_run (r : http.Request) (next : http.Request -> M unit) (w : World) :
  verifyJSON r next w =
    match readers w !! http.Body r with
    | None => (Panic nil_dereference, observe [EvJSONDecode] w)
    | Some s =>
        let w0 := store (<[http.Body r := snd (json_Decode s)]> (readers w))
                    (observe [EvJSONDecode] w) in
        match fst (json_Decode s) with
        | inl err => (Ret tt, observe (rejection err "Bad Request" 400) w0)
        | inr None => (Panic nil_dereference, w0)
        | inr (Some echoReq) =>
            match VerifyTimestamp echoReq w0 with
            | (Ret fresh, w1) =>
                if negb fresh && String.eqb (url.Get (URL_Query (http.URL r)) "_dev") ""
                then (Ret tt,
                      observe [EvLog "Request too old to continue (>150s).";
                               EvHTTPError "Bad Request" 400] w1)
                else checkAppID r echoReq next w1
            | (Panic msg, w1) => (Panic msg, w1)
            end
        end
    end.
Proof.
  unfold verifyJSON, bind at 1, emit. unfold bind at 1. unfold decode_body.
  cbn [readers observe].
  destruct (readers w !! http.Body r) as [s |]; [| reflexivity].
  cbv zeta.
  destruct (fst (json_Decode s)) as [err | [echoReq |]].
  - rewrite HTTPError_run. reflexivity.
  - unfold bind.
    destruct (VerifyTimestamp echoReq _) as [[fresh | msg] w1]; [| reflexivity].
    destruct (negb fresh && _); [| reflexivity].
    rewrite HTTPError_run. reflexivity.
  - reflexivity.
Qed.

(** A rejection of the gate: its place in the trace, then its reason. *)
Ltac rejected :=
  first [ left; split; [| events_goal; reflexivity]; econstructor; eassumption
        | right; split; [| events_goal; reflexivity]; eexists; split; [first [reflexivity | eassumption] | eassumption] ].

(** C9. Every run of the gate that returns false ends with the answer
    401 "Not Authorized" and a logged reason among: invalid certificate URL,
    certificate fetch, PEM decoding, X.509 parsing, expiry, name mismatch,
    signature mismatch; the one exception is a failed read of the request
    body, answered 500. In [verifyJSON], a payload that does not decode and a
    timestamp that does not verify (without [_dev]) are answered
    400 "Bad Request", with the decoder's error or the fixed reason logged. *)
Theorem rejections_carry_status_and_reason (r : RequestValidator)
  (request : http.Request) (next : http.Request -> M unit) (w : World) :
  (forall req' w',
     IsValidAlexaRequest r request w = (Ret (false, req'), w') ->
     exists pre reason,
       (GateReason request reason /\
        events_since w w' = (pre ++ rejection reason "Not Authorized" 401)%list) \/
       ((exists s, readers w !! http.Body request = Some s /\
                   io.failure s = Some reason) /\
        events_since w w' = (pre ++ rejection reason "Internal Error" 500)%list)) /\
  (forall s err s',
     readers w !! http.Body request = Some s ->
     json_Decode s = (inl err, s') ->
     verifyJSON request next w
       = (Ret tt,
          store (<[http.Body request := s']> (readers w))
            (observe (EvJSONDecode :: rejection err "Bad Request" 400) w))) /\
  (forall s echoReq s' w1,
     readers w !! http.Body request = Some s ->
     json_Decode s = (inr (Some echoReq), s') ->
     VerifyTimestamp echoReq
       (store (<[http.Body request := s']> (readers w)) (observe [EvJSONDecode] w))
       = (Ret false, w1) ->
     url.Get (URL_Query (http.URL request)) "_dev" = "" ->
     verifyJSON request next w
       = (Ret tt,
          observe [EvLog "Request too old to continue (>150s).";
                   EvHTTPError "Bad Request" 400] w1)).
Proof.
  split; [| split].
  - intros req' w' Hrun.
    gate_exits Hrun r request w;
      first [ eexists [], _; rejected
            | eexists [_], _; rejected
            | eexists [_; _], _; rejected
            | eexists [_; _; _], _; rejected
            | eexists [_; _; _; _; _], _; rejected
            | eexists [_; _; _; _; _; _], _; rejected ].
  - intros s err s' Hreader Hdecode.
    rewrite verifyJSON_run, Hreader. cbv zeta. rewrite Hdecode. cbn [fst snd].
    f_equal. same_world.
  - intros s echoReq s' w1 Hreader Hdecode Hstale Hdev.
    rewrite verifyJSON_run, Hreader. cbv zeta. rewrite Hdecode. cbn [fst snd].
    rewrite Hstale, Hdev. reflexivity.
Qed.
End JSONProperties.

Lemma Spec_VerifyTimestamp_run (echoReq : EchoRequest) (w : World) :
  Spec.VerifyTimestamp echoReq w =
    (Ret match claimed_timestamp echoReq with
         | None => false
         | Some claimed =>
             (Z.abs (time.Sub (clock w (ticks w)) claimed) <=? Spec.freshness_window)%Z
         end,
     tick w).
Proof.
  unfold Spec.VerifyTimestamp, bind, time_Now, ret.
  destruct (claimed_timestamp echoReq); reflexivity.
Qed.

(** C7. With the freshness check of the spec, a request whose claimed
    timestamp is within 150 seconds of the clock, before or after, passes on to
    the application id check; one that differs by more than 150 seconds, in the
    past or in the future, is answered 400 unless the [_dev] parameter is set. *)
Theorem freshness_check (verifyAppID : EchoRequest -> string -> bool)
  (r : http.Request) (next : http.Request -> M unit) (w : World)
  (s : io.Stream) (echoReq : EchoRequest) (s' : io.Stream) (claimed now : time.Time) :
  readers w !! http.Body r = Some s ->
  json_Decode s = (inr (Some echoReq), s') ->
  claimed_timestamp echoReq = Some claimed ->
  clock w (ticks w) = now ->
  (fst (Spec.VerifyTimestamp echoReq w) = Ret true <->
     Z.abs (time.Sub now claimed) <= 150 * time.Second) /\
  (Z.abs (time.Sub now claimed) > 150 * time.Second ->
   url.Get (URL_Query (http.URL r)) "_dev" = "" ->
   verifyJSON (methods := Spec.methods verifyAppID) r next w
     = (Ret tt,
        observe [EvLog "Request too old to continue (>150s).";
                 EvHTTPError "Bad Request" 400]
          (tick (store (<[http.Body r := s']> (readers w))
                   (observe [EvJSONDecode] w))))) /\
  (Z.abs (time.Sub now claimed) > 150 * time.Second ->
   url.Get (URL_Query (http.URL r)) "_dev" <> "" ->
   verifyJSON (methods := Spec.methods verifyAppID) r next w
     = checkAppID (methods := Spec.methods verifyAppID) r echoReq next
         (tick (store (<[http.Body r := s']> (readers w))
                  (observe [EvJSONDecode] w)))) /\
  (Z.abs (time.Sub now claimed) <= 150 * time.Second ->
   verifyJSON (methods := Spec.methods verifyAppID) r next w
     = checkAppID (methods := Spec.methods verifyAppID) r echoReq next
         (tick (store (<[http.Body r := s']> (readers w))
                  (observe [EvJSONDecode] w)))).
Proof.
  intros Hreader Hdecode Hclaimed Hnow.
  assert (Hjson : forall fresh,
            (Z.abs (time.Sub now claimed) <=? Spec.freshness_window)%Z = fresh ->
            verifyJSON (methods := Spec.methods verifyAppID) r next w =
              if negb fresh && String.eqb (url.Get (URL_Query (http.URL r)) "_dev") ""
              then (Ret tt,
                    observe [EvLog "Request too old to continue (>150s).";
                             EvHTTPError "Bad Request" 400]
                      (tick (store (<[http.Body r := s']> (readers w))
                               (observe [EvJSONDecode] w))))
              else checkAppID (methods := Spec.methods verifyAppID) r echoReq next
                     (tick (store (<[http.Body r := s']> (readers w))
                              (observe [EvJSONDecode] w)))).
  { intros fresh Hfresh. rewrite verifyJSON_run, Hreader. cbv zeta.
    rewrite Hdecode. cbn [fst snd VerifyTimestamp Spec.methods].
    rewrite Spec_VerifyTimestamp_run, Hclaimed.
    cbn [clock ticks store observe].
    now rewrite Hnow, Hfresh. }
  change (150 * time.Second) with Spec.freshness_window.
  split; [| split; [| split]].
  - rewrite Spec_VerifyTimestamp_run, Hclaimed, Hnow. cbn [fst].
    destruct (Z.leb_spec (Z.abs (time.Sub now claimed)) Spec.freshness_window);
      split; intros Hyp; try reflexivity; try assumption; try discriminate; lia.
  - intros Hstale Hdev. rewrite (Hjson false), Hdev; [reflexivity |].
    apply Z.leb_gt. lia.
  - intros Hstale Hdev. rewrite (Hjson false); [| apply Z.leb_gt; lia].
    destruct (String.eqb_spec (url.Get (URL_Query (http.URL r)) "_dev") "");
      [contradiction | reflexivity].
  - intros Hfresh. rewrite (Hjson true); [reflexivity |].
    now apply Z.leb_le.
Qed.
End GateProperties.

(** ** The signature stage, in general *)

Section SignatureProperties.
Context {lib : GoLib}.

(** A key that is not an RSA key makes the stage panic once the body is read. *)
Lemma verifySignature_panics_without_RSA_key (cert : x509.Certificate)
  (request : http.Request) (w : World) (s : io.Stream) :
  readers w !! http.Body request = Some s ->
  io.failure s = None ->
  (forall k, x509.PublicKey cert <> x509.RSAKey k) ->
  fst (verifySignature cert request w) = Panic failed_assertion.
Proof.
  intros Hreader Hbody Hkey. rewrite verifySignature_run. cbv zeta.
  rewrite Hreader, Hbody.
  destruct (x509.PublicKey cert) as [k | | |]; try reflexivity.
  now destruct (Hkey k).
Qed.

(** With an RSA key and a readable body the stage accepts exactly when the
    bytes that the decoder returned verify, whether or not it also returned
    an error. *)
Lemma verifySignature_accepts_iff (cert : x509.Certificate) (request : http.Request)
  (w : World) (s : io.Stream) (k : rsa.PublicKey) :
  readers w !! http.Body request = Some s ->
  io.failure s = None ->
  x509.PublicKey cert = x509.RSAKey k ->
  (exists req', fst (verifySignature cert request w) = Ret (true, req')) <->
  rsa_VerifyPKCS1v15 k (sha1_Sum (io.data s))
    (fst (base64_DecodeString (Header_Get (http.Header_ request) "Signature"))) = None.
Proof.
  intros Hreader Hbody Hkey. rewrite verifySignature_run. cbv zeta.
  rewrite Hreader, Hbody, Hkey.
  destruct (rsa_VerifyPKCS1v15 k _ _) as [err |]; cbn [fst]; split.
  - intros [req' Hreq']. discriminate.
  - discriminate.
  - reflexivity.
  - intros _. eauto.
Qed.

End SignatureProperties.

(** ** Runs on the bench *)

Lemma fetch_failure_is_terminal_witness :
  IsValidAlexaRequest (lib := Bench.lib) Bench.validator Bench.signed
    (Bench.offline 1500 Bench.body)
  = (Ret (false, Bench.signed),
     next_fetch
       (observe
          [EvGet Bench.certURL;
           EvLog ("could not download Amazon cert file: Get " ++ Bench.certURL
                  ++ ": net/http: request canceled (Client.Timeout exceeded)");
           EvHTTPError "Not Authorized" 401]
          (Bench.offline 1500 Bench.body))).
Proof.
  apply (fetch_failure_is_terminal (lib := Bench.lib) Bench.validator Bench.signed
           (Bench.offline 1500 Bench.body)
           ("could not download Amazon cert file: Get " ++ Bench.certURL
            ++ ": net/http: request canceled (Client.Timeout exceeded)")).
  - reflexivity.
  - vm_compute. reflexivity.
  - vm_compute. reflexivity.
Defined.

(** On the bench the request arrives with the reader at address 0 and leaves
    the gate with the reader at address 1. *)
Lemma body_replayed_after_signature_check_witness :
  exists s,
    readers (Bench.world 1500 [Byte.x01] Bench.body) !! 0%nat = Some s /\
    io.failure s = None /\
    Bench.body = sha1_Sum (GoLib := Bench.lib) (io.data s) /\
    In (EvSHA1 (io.data s))
       (events_since (Bench.world 1500 [Byte.x01] Bench.body)
          (snd (IsValidAlexaRequest (lib := Bench.lib) Bench.validator Bench.signed
                  (Bench.world 1500 [Byte.x01] Bench.body)))) /\
    readers (snd (IsValidAlexaRequest (lib := Bench.lib) Bench.validator Bench.signed
                    (Bench.world 1500 [Byte.x01] Bench.body))) !! 0%nat
      = Some (io.mkStream [] None) /\
    1%nat <> 0%nat /\
    http.with_Body Bench.signed 1%nat = http.with_Body Bench.signed 1%nat /\
    readers (snd (IsValidAlexaRequest (lib := Bench.lib) Bench.validator Bench.signed
                    (Bench.world 1500 [Byte.x01] Bench.body))) !! 1%nat
      = Some (io.mkStream (io.data s) None) /\
    fst (read_to_end 1%nat
           (snd (IsValidAlexaRequest (lib := Bench.lib) Bench.validator Bench.signed
                   (Bench.world 1500 [Byte.x01] Bench.body))))
      = Ret (io.data s, None).
Proof.
  apply (body_replayed_after_signature_check (lib := Bench.lib) Bench.validator
           Bench.signed (http.with_Body Bench.signed 1%nat)
           (Bench.world 1500 [Byte.x01] Bench.body)
           (snd (IsValidAlexaRequest (lib := Bench.lib) Bench.validator Bench.signed
                   (Bench.world 1500 [Byte.x01] Bench.body)))
           true Bench.body Bench.body).
  - vm_compute. reflexivity.
  - vm_compute. repeat (first [left; reflexivity | right]).
Defined.

Lemma rejections_carry_status_and_reason_witness :
  (exists pre reason,
     (GateReason (lib := Bench.lib) Bench.signed reason /\
      events_since (Bench.offline 1500 Bench.body)
        (snd (IsValidAlexaRequest (lib := Bench.lib) Bench.validator Bench.signed
                (Bench.offline 1500 Bench.body)))
      = (pre ++ rejection reason "Not Authorized" 401)%list) \/
     ((exists s, readers (Bench.offline 1500 Bench.body) !! http.Body Bench.signed = Some s /\
                 io.failure s = Some reason) /\
      events_since (Bench.offline 1500 Bench.body)
        (snd (IsValidAlexaRequest (lib := Bench.lib) Bench.validator Bench.signed
                (Bench.offline 1500 Bench.body)))
      = (pre ++ rejection reason "Internal Error" 500)%list)) /\
  verifyJSON (lib := Bench.lib) (methods := Spec.methods Bench.verifyAppID)
      Bench.signed Bench.downstream (Bench.world 1500 [Byte.x01] Bench.body)
  = (Ret tt,
     store [io.mkStream [] None]
       (observe (EvJSONDecode :: rejection "invalid character" "Bad Request" 400)
          (Bench.world 1500 [Byte.x01] Bench.body))).
Proof.
  split.
  - destruct (rejections_carry_status_and_reason (lib := Bench.lib)
                (methods := Spec.methods Bench.verifyAppID)
                Bench.validator Bench.signed Bench.downstream
                (Bench.offline 1500 Bench.body))
      as [Hgate _].
    apply (Hgate Bench.signed). vm_compute. reflexivity.
  - destruct (rejections_carry_status_and_reason (lib := Bench.lib)
                (methods := Spec.methods Bench.verifyAppID)
                Bench.validator Bench.signed Bench.downstream
                (Bench.world 1500 [Byte.x01] Bench.body))
      as (_ & Hjson & _).
    apply (Hjson (io.mkStream Bench.body None) "invalid character" (io.mkStream [] None));
      reflexivity.
Defined.

Lemma freshness_check_witness :
  verifyJSON (lib := Bench.lib) (methods := Spec.methods Bench.verifyAppID)
      (Bench.request "" Bench.certURL "")
      Bench.downstream (Bench.world 1500 [Byte.x01] [Byte.x7b; Byte.x32; Byte.x7d])
  = (Ret tt,
     observe [EvLog "Request too old to continue (>150s).";
              EvHTTPError "Bad Request" 400]
       (tick (store [io.mkStream [] None]
                (observe [EvJSONDecode]
                   (Bench.world 1500 [Byte.x01] [Byte.x7b; Byte.x32; Byte.x7d]))))).
Proof.
  apply (freshness_check (lib := Bench.lib) Bench.verifyAppID
           (Bench.request "" Bench.certURL "")
           Bench.downstream (Bench.world 1500 [Byte.x01] [Byte.x7b; Byte.x32; Byte.x7d])
           (io.mkStream [Byte.x7b; Byte.x32; Byte.x7d] None)
           Bench.stale_request
           (io.mkStream [] None)
           (Bench.at_second 1300) (Bench.at_second 1500)).
  - reflexivity.
  - reflexivity.
  - reflexivity.
  - reflexivity.
  - vm_compute. reflexivity.
  - vm_compute. reflexivity.
Defined.

(** The freshness check of the spec on the bench, the clock at second 1500:
    claimed 100 seconds ago, 200 seconds ago, 200 seconds ahead, and exactly
    150 seconds ago and ahead. *)
Example freshness_on_the_bench :
  map (fun claimed =>
         fst (Spec.VerifyTimestamp (mkEchoRequest (Some (Bench.at_second claimed)) "app-1")
                (Bench.world 1500 [Byte.x01] Bench.body)))
      [1400; 1300; 1700; 1350; 1650]
  = [Ret true; Ret false; Ret false; Ret true; Ret true].
Proof. reflexivity. Qed.

(** The whole chain on the bench: a signed request with a fresh timestamp
    reaches the application, the JSON decoder reading the bytes that the gate
    put back. *)
Example chain_on_the_bench :
  trace (snd (validateRequest (lib := Bench.lib) Bench.validator
                (Bench.request "" Bench.certURL "ezF9")
                (fun req => verifyJSON (lib := Bench.lib)
                              (methods := Spec.methods Bench.verifyAppID)
                              req Bench.downstream)
                (Bench.world 1500 [Byte.x01] [Byte.x7b; Byte.x31; Byte.x7d])))
  = [EvGet Bench.certURL; EvPemDecode [Byte.x01]; EvParseCertificate [Byte.x01];
     EvBase64Decode "ezF9";
     EvSHA1 [Byte.x7b; Byte.x31; Byte.x7d];
     EvVerifyPKCS1v15 [Byte.x7b; Byte.x31; Byte.x7d] [Byte.x7b; Byte.x31; Byte.x7d];
     EvJSONDecode; EvLog "handled"].
Proof. vm_compute. reflexivity. Qed.

(** * More properties of the package *)

(** ** Every exit of the gate *)

Section MoreGateProperties.
Context {lib : GoLib}.

(** X1. A run of the gate that returns false has called [http.Error] exactly
    once, as its last act; a run that returns true, or panics, has not called
    it at all. *)
Theorem one_answer_per_rejection (r : RequestValidator) (request : http.Request)
  (w w' : World) (o : Outcome (bool * http.Request)) :
  IsValidAlexaRequest r request w = (o, w') ->
  match o with
  | Ret (false, _) =>
      exists pre body code,
        events_since w w' = (pre ++ [EvHTTPError body code])%list /\
        filter is_answer pre = []
  | _ => filter is_answer (events_since w w') = []
  end.
Proof.
  intros H. gate_exits H r request w;
    rewrite ?events_since_refl; try events_goal;
    unfold rejection;
    repeat match goal with |- context [String.eqb ?a ""] => destruct (String.eqb a "") end;
    cbn [app];
    try reflexivity;
    match goal with
    | |- exists pre body code, ?evs = _ /\ _ => exists (removelast evs)
    end;
    cbn [removelast]; eexists _, _; split; reflexivity.
Qed.

Lemma gate_calls_Get (r : RequestValidator) (request : http.Request)
  (w w' : World) (o : Outcome (bool * http.Request)) :
  IsValidAlexaRequest r request w = (o, w') ->
  filter is_fetch (events_since w w')
  = (if insecureSkipVerify r then []
     else match verifyCertURL (Header_Get (http.Header_ request) "SignatureCertChainUrl"),
                client r with
          | Ret true, Some _ =>
              [EvGet (Header_Get (http.Header_ request) "SignatureCertChainUrl")]
          | _, _ => []
          end) /\
  fetches w' = (length (filter is_fetch (events_since w w')) + fetches w)%nat.
Proof.
  intros H. gate_exits H r request w;
    rewrite ?events_since_refl; try events_goal;
    unfold rejection;
    repeat match goal with |- context [String.eqb ?a ""] => destruct (String.eqb a "") end;
    cbn [app filter is_fetch length fetches store observe tick next_fetch];
    (split; reflexivity).
Qed.

(** X2. The gate calls [Get] on its client at most once. It calls it exactly
    when verification is not skipped, the certificate URL has passed
    [verifyCertURL] and the validator has a client, and then with the value of
    the header as it is; the network is asked as often as [Get] is called. A
    validator without a client makes no call. *)
Theorem fetch_only_after_valid_url (r : RequestValidator) (request : http.Request)
  (w w' : World) (o : Outcome (bool * http.Request)) :
  IsValidAlexaRequest r request w = (o, w') ->
  filter is_fetch (events_since w w')
  = (if insecureSkipVerify r then []
     else match verifyCertURL (Header_Get (http.Header_ request) "SignatureCertChainUrl"),
                client r with
          | Ret true, Some _ =>
              [EvGet (Header_Get (http.Header_ request) "SignatureCertChainUrl")]
          | _, _ => []
          end) /\
  fetches w' = (length (filter is_fetch (events_since w w')) + fetches w)%nat.
Proof. exact (gate_calls_Get r request w w' o). Qed.

(** X3. When verification is not skipped, the gate returns true only if every
    check has passed: the URL is valid, the validator has a client, the
    fetched contents decode and parse to a certificate, the clock readings lie
    within its validity, the name is found, the body was read without error,
    the key is an RSA key, and the decoded signature verifies against the
    digest of the body. *)
Theorem acceptance_implies_every_check (r : RequestValidator)
  (request req' : http.Request) (w w' : World) :
  IsValidAlexaRequest r request w = (Ret (true, req'), w') ->
  insecureSkipVerify r = false ->
  verifyCertURL (Header_Get (http.Header_ request) "SignatureCertChainUrl") = Ret true /\
  exists c certContents block cert s k,
    client r = Some c /\
    fst (readCert r (Header_Get (http.Header_ request) "SignatureCertChainUrl") w)
      = Ret (inr certContents) /\
    pem_Decode certContents = Some block /\
    x509_ParseCertificate (pem.Bytes block) = inr cert /\
    time.Unix (x509.NotBefore cert) <= time.Unix (clock w (ticks w)) /\
    time.Unix (clock w (S (ticks w))) <= time.Unix (x509.NotAfter cert) /\
    foundName (pkix.Names (x509.Subject cert)) = true /\
    readers w !! http.Body request = Some s /\
    io.failure s = None /\
    x509.PublicKey cert = x509.RSAKey k /\
    rsa_VerifyPKCS1v15 k (sha1_Sum (io.data s))
      (fst (base64_DecodeString (Header_Get (http.Header_ request) "Signature")))
      = None.
Proof.
  intros H Hnoskip. gate_exits H r request w; try discriminate.
  split; [reflexivity |].
  exists c, (io.data body), block, cert, s, k.
  rewrite readCert_run, Hclient, Hremote, Hfetched. cbn [fst].
  repeat split; try assumption; try reflexivity.
  - apply Z.ltb_ge in Hearly. lia.
  - rewrite Z.gtb_ltb in Hlate. apply Z.ltb_ge in Hlate. lia.
Qed.

(** X4. Whatever the verdict, the gate leaves the URL, the headers and the
    context of the request as they were; the body of the returned request
    fails to read exactly as the original did, and when the original reads
    without error the returned one delivers the same bytes; no reader other
    than the one the request came with is touched. *)
Theorem request_preserved (r : RequestValidator) (request req' : http.Request)
  (w w' : World) (b : bool) :
  IsValidAlexaRequest r request w = (Ret (b, req'), w') ->
  http.URL req' = http.URL request /\
  http.Header_ req' = http.Header_ request /\
  http.echoRequest req' = http.echoRequest request /\
  option_map io.failure (readers w' !! http.Body req')
    = option_map io.failure (readers w !! http.Body request) /\
  (forall s, readers w !! http.Body request = Some s -> io.failure s = None ->
     fst (read_to_end (http.Body req') w') = fst (read_to_end (http.Body request) w)) /\
  (forall a, a <> http.Body request -> (a < length (readers w))%nat ->
     readers w' !! a = readers w !! a).
Proof.
  intros H. gate_exits H r request w;
    (split; [reflexivity |]); (split; [reflexivity |]); (split; [reflexivity |]);
    cbn [readers store observe tick next_fetch http.Body http.with_Body];
    try (split; [reflexivity | split; intros; [| reflexivity]];
         unfold read_to_end; cbn [readers store observe tick next_fetch];
         now destruct (readers w !! _));
    try (repeat split; intros; reflexivity).
  - (* the body cannot be read *)
    apply lookup_lt_Some in Hreader as Hlt.
    rewrite list_lookup_insert_eq by assumption.
    split; [reflexivity |]. split.
    + intros s0 [= <-] Hok. congruence.
    + intros a Hne _. now apply list_lookup_insert_ne.
  - (* the signature does not verify *)
    apply lookup_lt_Some in Hreader as Hlt.
    unfold read_to_end. cbn [readers store].
    rewrite new_reader. cbn [option_map io.failure].
    split; [now rewrite Hbody |]. split.
    + intros s0 [= <-] _. rewrite Hreader. unfold io.ReadAll.
      cbn [fst io.data io.failure]. now rewrite Hbody.
    + intros a Hne Ha. now apply other_reader.
  - (* accepted *)
    apply lookup_lt_Some in Hreader as Hlt.
    unfold read_to_end. cbn [readers store].
    rewrite new_reader. cbn [option_map io.failure].
    split; [now rewrite Hbody |]. split.
    + intros s0 [= <-] _. rewrite Hreader. unfold io.ReadAll.
      cbn [fst io.data io.failure]. now rewrite Hbody.
    + intros a Hne Ha. now apply other_reader.
Qed.

(** Two runs that have taken the same exit: same verdict, same events. *)
Ltac same_leaf :=
  cbn [fst snd verdict];
  (split; [reflexivity |]);
  rewrite ?events_since_refl; repeat events_goal; reflexivity.

(** What a run of the gate reads: the validator, the headers of the request,
    the state of the reader behind its body, the next two readings of the
    clock and the answer of the network to the next call. Two runs that agree
    on these end with the same verdict after the same events. *)
Lemma gate_reads_only (r : RequestValidator) (q1 q2 : http.Request) (w1 w2 : World) :
  http.Header_ q1 = http.Header_ q2 ->
  clock w1 (ticks w1) = clock w2 (ticks w2) ->
  clock w1 (S (ticks w1)) = clock w2 (S (ticks w2)) ->
  (forall c,
     remote w1 c (fetches w1) (Header_Get (http.Header_ q1) "SignatureCertChainUrl")
     = remote w2 c (fetches w2) (Header_Get (http.Header_ q1) "SignatureCertChainUrl")) ->
  readers w1 !! http.Body q1 = readers w2 !! http.Body q2 ->
  verdict (fst (IsValidAlexaRequest r q1 w1)) = verdict (fst (IsValidAlexaRequest r q2 w2)) /\
  events_since w1 (snd (IsValidAlexaRequest r q1 w1))
  = events_since w2 (snd (IsValidAlexaRequest r q2 w2)).
Proof.
  intros Hheaders Hfirst Hsecond Hnet Hreader.
  rewrite !IsValidAlexaRequest_run. cbv zeta. rewrite <- Hheaders.
  destruct (insecureSkipVerify r); [same_leaf |].
  destruct (verifyCertURL _) as [[|] | msg]; [| same_leaf | same_leaf].
  rewrite !readCert_run. destruct (client r) as [c |]; [| same_leaf].
  cbn [fst]. rewrite <- Hnet.
  destruct (remote w1 c _ _) as [err | body]; [same_leaf |].
  destruct (io.failure body) as [err |]; [same_leaf |].
  destruct (pem_Decode (io.data body)) as [block |]; [| same_leaf].
  destruct (x509_ParseCertificate (pem.Bytes block)) as [err | cert]; [same_leaf |].
  rewrite !validateCertificate_run, !certDateInvalid_run.
  cbn [clock ticks observe tick next_fetch]. rewrite <- Hfirst, <- Hsecond.
  destruct (time.Unix (clock w1 (ticks w1)) <? _)%Z; [same_leaf |].
  destruct (time.Unix (clock w1 (S (ticks w1))) >? _)%Z; [same_leaf |].
  destruct (foundName _); [| same_leaf].
  rewrite !verifySignature_run. cbv zeta.
  cbn [readers observe tick next_fetch]. rewrite <- Hheaders, <- Hreader.
  destruct (readers w1 !! http.Body q1) as [s |]; [| same_leaf].
  destruct (io.failure s) as [err |]; [same_leaf |].
  destruct (x509.PublicKey cert) as [k | | |]; try same_leaf.
  destruct (rsa_VerifyPKCS1v15 k _ _); same_leaf.
Qed.

(** What a run that returns leaves for a later one: the headers, the clock
    and the network as they were, at most one call of [Get] made, and, when
    the body reads without error, a body in the state in which the request
    came. *)
Lemma gate_returns_replayable (r : RequestValidator) (request req' : http.Request)
  (w w' : World) (b : bool) :
  IsValidAlexaRequest r request w = (Ret (b, req'), w') ->
  http.Header_ req' = http.Header_ request /\
  clock w' = clock w /\
  remote w' = remote w /\
  (fetches w' = fetches w \/ fetches w' = S (fetches w)) /\
  ((forall s, readers w !! http.Body request = Some s -> io.failure s = None) ->
   readers w' !! http.Body req' = readers w !! http.Body request).
Proof.
  intros H. gate_exits H r request w;
    (split; [reflexivity |]); (split; [reflexivity |]); (split; [reflexivity |]);
    (split; [first [now left | now right] |]);
    cbn [readers store observe tick next_fetch http.Body http.with_Body];
    intros Hreadable; try reflexivity.
  - specialize (Hreadable _ eq_refl). congruence.
  - rewrite new_reader. destruct s as [bodyBuf failure].
    cbn [io.failure io.data] in *. now subst.
  - rewrite new_reader. destruct s as [bodyBuf failure].
    cbn [io.failure io.data] in *. now subst.
Qed.

(** X5. With the clock standing still, a network that answers the next call
    of [Get] as it answers this one, and a body that reads without error, the
    request that a run of the gate returned can be validated again: the second
    run gives the same verdict after the same events, its digest taken over
    the bytes that the first run consumed and put back. *)
Theorem revalidation_gives_same_verdict (r : RequestValidator)
  (request req' : http.Request) (w w' : World) (b : bool) (now : time.Time) :
  (forall n, clock w n = now) ->
  (forall c certURL, remote w c (S (fetches w)) certURL = remote w c (fetches w) certURL) ->
  (forall s, readers w !! http.Body request = Some s -> io.failure s = None) ->
  IsValidAlexaRequest r request w = (Ret (b, req'), w') ->
  exists req'' w'',
    IsValidAlexaRequest r req' w' = (Ret (b, req''), w'') /\
    events_since w' w'' = events_since w w'.
Proof.
  intros Hclock Hnet Hreadable H.
  destruct (gate_returns_replayable _ _ _ _ _ _ H)
    as (Hheaders & Hsameclock & Hsamenet & Hcalls & Hbody).
  destruct (gate_reads_only r req' request w' w) as [Hverdict Hevents].
  - exact Hheaders.
  - now rewrite Hsameclock, !Hclock.
  - now rewrite Hsameclock, !Hclock.
  - intros c. rewrite Hsamenet, Hheaders.
    destruct Hcalls as [-> | ->]; [reflexivity | apply Hnet].
  - now apply Hbody.
  - rewrite H in Hverdict, Hevents. cbn [fst snd verdict] in Hverdict, Hevents.
    destruct (IsValidAlexaRequest r req' w') as [[[b2 req''] | msg] w''];
      cbn [fst snd verdict] in Hverdict, Hevents; [| discriminate].
    injection Hverdict as ->. now exists req'', w''.
Qed.

(** X20. The verdict of the gate and what it does depend only on the
    validator, the headers of the request, the state of the reader behind its
    body, the next two readings of the clock and the answer of the network to
    the next call of [Get]: two runs that agree on these end with the same
    verdict, or the same panic, after the same events, whatever else differs
    in the request or in the world. *)
Theorem verdict_depends_on (r : RequestValidator) (q1 q2 : http.Request) (w1 w2 : World) :
  http.Header_ q1 = http.Header_ q2 ->
  clock w1 (ticks w1) = clock w2 (ticks w2) ->
  clock w1 (S (ticks w1)) = clock w2 (S (ticks w2)) ->
  (forall c,
     remote w1 c (fetches w1) (Header_Get (http.Header_ q1) "SignatureCertChainUrl")
     = remote w2 c (fetches w2) (Header_Get (http.Header_ q1) "SignatureCertChainUrl")) ->
  readers w1 !! http.Body q1 = readers w2 !! http.Body q2 ->
  verdict (fst (IsValidAlexaRequest r q1 w1)) = verdict (fst (IsValidAlexaRequest r q2 w2)) /\
  events_since w1 (snd (IsValidAlexaRequest r q1 w1))
  = events_since w2 (snd (IsValidAlexaRequest r q2 w2)).
Proof. exact (gate_reads_only r q1 q2 w1 w2). Qed.

(** X18. The gate panics in four situations only, as far as the code of the
    package goes, and in none of them has an answer been written: before
    anything is observed, when [url.Parse] refuses the certificate URL, or
    when the URL is valid and the validator has no client; and in the
    signature stage, on a certificate that has passed the date and name
    checks, when the request has no body to read, or when the body has been
    read without error and the key is not an RSA key. *)
Theorem gate_panics_only (r : RequestValidator) (request : http.Request)
  (w w' : World) (msg : string) :
  IsValidAlexaRequest r request w = (Panic msg, w') ->
  filter is_answer (events_since w w') = [] /\
  ((msg = nil_dereference /\ w' = w /\
    url_Parse (Header_Get (http.Header_ request) "SignatureCertChainUrl") = None) \/
   (msg = nil_dereference /\ w' = w /\
    verifyCertURL (Header_Get (http.Header_ request) "SignatureCertChainUrl") = Ret true /\
    client r = None) \/
   (exists block cert,
      x509_ParseCertificate (pem.Bytes block) = inr cert /\
      foundName (pkix.Names (x509.Subject cert)) = true /\
      ((msg = nil_dereference /\ readers w !! http.Body request = None) \/
       (msg = failed_assertion /\
        (exists s, readers w !! http.Body request = Some s /\ io.failure s = None) /\
        forall k, x509.PublicKey cert <> x509.RSAKey k)))).
Proof.
  intros H. gate_exits H r request w.
  1-3: split; [events_goal; reflexivity |]; right; right;
    exists block, cert; (split; [assumption |]); (split; [assumption |]); right;
    (split; [reflexivity |]); (split; [now exists s |]);
    rewrite Hkey; discriminate.
  - split; [events_goal; reflexivity |]. right. right.
    exists block, cert. split; [assumption |]. split; [assumption |]. now left.
  - split; [now rewrite events_since_refl |]. right. left. now repeat split.
  - split; [now rewrite events_since_refl |]. left.
    apply verifyCertURL_panic in Hurl as [-> Hnil]. now repeat split.
Qed.

(** X21. A validator without a client, such as the zero value
    [RequestValidator{}], cannot validate: with verification not skipped,
    every request whose certificate URL passes [verifyCertURL] makes the gate
    panic before it has observed or answered anything. *)
Theorem gate_needs_client (r : RequestValidator) (request : http.Request) (w : World) :
  client r = None ->
  insecureSkipVerify r = false ->
  verifyCertURL (Header_Get (http.Header_ request) "SignatureCertChainUrl") = Ret true ->
  IsValidAlexaRequest r request w = (Panic nil_dereference, w).
Proof.
  intros Hnil Hnoskip Hvalid.
  rewrite IsValidAlexaRequest_run. cbv zeta.
  now rewrite Hnoskip, Hvalid, readCert_run, Hnil.
Qed.
End MoreGateProperties.

(** ** The two middleware handlers *)

Section MiddlewareProperties.
Context {lib : GoLib}.

Lemma validateRequest_cases (r : RequestValidator) (req : http.Request) (w : World) :
  exists h,
    (forall next, validateRequest r req next w = hand_over h next) /\
    match h with
    | Forwarded req' w' =>
        (url.Get (URL_Query (http.URL req)) "_dev" <> "" /\ req' = req /\ w' = w) \/
        (url.Get (URL_Query (http.URL req)) "_dev" = "" /\
         IsValidAlexaRequest r req w = (Ret (true, req'), w'))
    | Answered w' =>
        url.Get (URL_Query (http.URL req)) "_dev" = "" /\
        exists req' w1,
          IsValidAlexaRequest r req w = (Ret (false, req'), w1) /\
          w' = observe [EvLog "Request invalid"] w1
    | Panicked msg w' =>
        url.Get (URL_Query (http.URL req)) "_dev" = "" /\
        IsValidAlexaRequest r req w = (Panic msg, w')
    end.
Proof.
  unfold validateRequest. cbv zeta.
  destruct (String.eqb_spec (url.Get (URL_Query (http.URL req)) "_dev") "") as [Hdev | Hdev];
    cbn [negb].
  - unfold bind.
    destruct (IsValidAlexaRequest r req w) as [[[[|] req'] | msg] w'] eqn:Hgate; cbn [fst snd negb].
    + exists (Forwarded req' w'). split; [reflexivity | now right].
    + exists (Answered (observe [EvLog "Request invalid"] w')).
      split; [reflexivity |]. split; [assumption |]. now exists req', w'.
    + exists (Panicked msg w'). split; [reflexivity | now split].
  - exists (Forwarded req w). split; [reflexivity | now left].
Qed.

(** X6. [validateRequest] calls the next handler at most once, as its last
    act: on the untouched request when [_dev] is set, on the request the gate
    returned when the gate returned true. When the gate returns false it only
    adds the log line "Request invalid"; when the gate panics, so does it. *)
Theorem validateRequest_handover (r : RequestValidator) (req : http.Request) (w : World) :
  exists h,
    (forall next, validateRequest r req next w = hand_over h next) /\
    match h with
    | Forwarded req' w' =>
        (url.Get (URL_Query (http.URL req)) "_dev" <> "" /\ req' = req /\ w' = w) \/
        (url.Get (URL_Query (http.URL req)) "_dev" = "" /\
         IsValidAlexaRequest r req w = (Ret (true, req'), w'))
    | Answered w' =>
        url.Get (URL_Query (http.URL req)) "_dev" = "" /\
        exists req' w1,
          IsValidAlexaRequest r req w = (Ret (false, req'), w1) /\
          w' = observe [EvLog "Request invalid"] w1
    | Panicked msg w' =>
        url.Get (URL_Query (http.URL req)) "_dev" = "" /\
        IsValidAlexaRequest r req w = (Panic msg, w')
    end.
Proof. exact (validateRequest_cases r req w). Qed.

(** What an accepting run has read and put back: the reader of the request
    delivered its bytes without error, their digest was verified against the
    decoded signature, and the returned request points at a reader that holds
    them. *)
Lemma accepted_body (r : RequestValidator) (request req' : http.Request) (w w' : World) :
  IsValidAlexaRequest r request w = (Ret (true, req'), w') ->
  insecureSkipVerify r = false ->
  exists s,
    readers w !! http.Body request = Some s /\
    io.failure s = None /\
    In (EvVerifyPKCS1v15 (sha1_Sum (io.data s))
          (fst (base64_DecodeString (Header_Get (http.Header_ request) "Signature"))))
       (events_since w w') /\
    readers w' !! http.Body req' = Some (io.mkStream (io.data s) None) /\
    http.URL req' = http.URL request.
Proof.
  intros H Hnoskip. gate_exits H r request w; try discriminate.
  exists s. cbn [readers store http.Body http.with_Body].
  rewrite new_reader.
  repeat split; try assumption.
  events_goal. cbn [app In]. tauto.
Qed.

Section JSON.
Context {methods : EchoRequestMethods}.

Lemma verifyJSON_cases (r : http.Request) (w : World) :
  exists h,
    (forall next, verifyJSON r next w = hand_over h next) /\
    match h with
    | Forwarded req' w' =>
        exists s echoReq AppID,
          readers w !! http.Body r = Some s /\
          fst (json_Decode s) = inr (Some echoReq) /\
          req' = http.with_echoRequest r echoReq /\
          GetEchoRequest req' = Ret echoReq /\
          applications w' !! url.Path (http.URL r) = Some (EchoApplication AppID) /\
          VerifyAppID echoReq AppID = true
    | Answered w' =>
        exists reason w1, w' = observe (rejection reason "Bad Request" 400) w1
    | Panicked msg w' => True
    end.
Proof.
  destruct (readers w !! http.Body r) as [s |] eqn:Hreader.
  2: { exists (Panicked nil_dereference (observe [EvJSONDecode] w)). split; [| exact I].
       intros next. now rewrite verifyJSON_run, Hreader. }
  set (w0 := store (<[http.Body r := snd (json_Decode s)]> (readers w))
               (observe [EvJSONDecode] w)).
  assert (Hrun : forall next, verifyJSON r next w =
            match fst (json_Decode s) with
            | inl err => (Ret tt, observe (rejection err "Bad Request" 400) w0)
            | inr None => (Panic nil_dereference, w0)
            | inr (Some echoReq) =>
                match VerifyTimestamp echoReq w0 with
                | (Ret fresh, w1) =>
                    if negb fresh && String.eqb (url.Get (URL_Query (http.URL r)) "_dev") ""
                    then (Ret tt,
                          observe [EvLog "Request too old to continue (>150s).";
                                   EvHTTPError "Bad Request" 400] w1)
                    else checkAppID r echoReq next w1
                | (Panic msg, w1) => (Panic msg, w1)
                end
            end).
  { intros next. now rewrite verifyJSON_run, Hreader. }
  destruct (fst (json_Decode s)) as [err | [echoReq |]] eqn:Hdecode.
  - exists (Answered (observe (rejection err "Bad Request" 400) w0)).
    split; [exact Hrun | now exists err, w0].
  - destruct (VerifyTimestamp echoReq w0) as [[fresh | msg] w1] eqn:Hfresh.
    + destruct (negb fresh && String.eqb (url.Get (URL_Query (http.URL r)) "_dev") "")
        eqn:Hstale.
      * exists (Answered (observe [EvLog "Request too old to continue (>150s).";
                                   EvHTTPError "Bad Request" 400] w1)).
        split; [exact Hrun |].
        now exists "Request too old to continue (>150s).", w1.
      * destruct (applications w1 !! url.Path (http.URL r)) as [[AppID | methods'] |] eqn:Happ.
        -- destruct (VerifyAppID echoReq AppID) eqn:Hid.
           ++ exists (Forwarded (http.with_echoRequest r echoReq) w1).
              split.
              ** intros next. rewrite Hrun.
                 unfold checkAppID, bind, lookup_application.
                 rewrite Happ, Hid. reflexivity.
              ** exists s, echoReq, AppID. repeat split; assumption.
           ++ exists (Answered (observe (rejection "Echo AppID mismatch!" "Bad Request" 400) w1)).
              split.
              ** intros next. rewrite Hrun.
                 unfold checkAppID, bind, lookup_application.
                 rewrite Happ, Hid. cbn [negb].
                 now rewrite HTTPError_run.
              ** now exists "Echo AppID mismatch!", w1.
        -- exists (Panicked "interface conversion: interface {} is not skillserver.EchoApplication" w1).
           split; [| exact I].
           intros next. rewrite Hrun.
           unfold checkAppID, bind, lookup_application. now rewrite Happ.
        -- exists (Panicked "interface conversion: interface {} is not skillserver.EchoApplication" w1).
           split; [| exact I].
           intros next. rewrite Hrun.
           unfold checkAppID, bind, lookup_application. now rewrite Happ.
    + exists (Panicked msg w1). split; [exact Hrun | exact I].
  - exists (Panicked nil_dereference w0). split; [exact Hrun | exact I].
Qed.

(** X7. [verifyJSON] calls the next handler at most once, as its last act, and
    then on a request whose context holds the [EchoRequest] that the decoder
    read from the body, after the application registered under the path has
    verified its id. Whenever it returns without calling it, its last act is
    the answer 400 "Bad Request". *)
Theorem verifyJSON_handover (r : http.Request) (w : World) :
  exists h,
    (forall next, verifyJSON r next w = hand_over h next) /\
    match h with
    | Forwarded req' w' =>
        exists s echoReq AppID,
          readers w !! http.Body r = Some s /\
          fst (json_Decode s) = inr (Some echoReq) /\
          req' = http.with_echoRequest r echoReq /\
          GetEchoRequest req' = Ret echoReq /\
          applications w' !! url.Path (http.URL r) = Some (EchoApplication AppID) /\
          VerifyAppID echoReq AppID = true
    | Answered w' =>
        exists reason w1, w' = observe (rejection reason "Bad Request" 400) w1
    | Panicked msg w' => True
    end.
Proof. exact (verifyJSON_cases r w). Qed.

(** X19. In the chain of the two middleware handlers the application is
    reached at most once, and only with a decoded request in the context
    whose id the registered application has verified, after the gate has
    returned true or with [_dev] set; otherwise the chain ends in an answer or
    in a panic. *)
Theorem chain_handover (r : RequestValidator) (req : http.Request) (w : World) :
  exists h,
    (forall next,
       validateRequest r req (fun r1 => verifyJSON r1 next) w = hand_over h next) /\
    match h with
    | Forwarded r2 w2 =>
        (exists echoReq AppID,
           GetEchoRequest r2 = Ret echoReq /\
           applications w2 !! url.Path (http.URL r2) = Some (EchoApplication AppID) /\
           VerifyAppID echoReq AppID = true) /\
        (url.Get (URL_Query (http.URL req)) "_dev" <> "" \/
         exists req' w', IsValidAlexaRequest r req w = (Ret (true, req'), w'))
    | _ => True
    end.
Proof.
  destruct (validateRequest_cases r req w) as (h1 & Hh1 & Hcases).
  destruct h1 as [w1 | msg w1 | req' w1].
  - exists (Answered w1). split; [| exact I]. intros next. now rewrite Hh1.
  - exists (Panicked msg w1). split; [| exact I]. intros next. now rewrite Hh1.
  - destruct (verifyJSON_cases req' w1) as (h2 & Hh2 & Hjson).
    exists h2. split.
    + intros next. rewrite Hh1. cbn [hand_over]. apply Hh2.
    + destruct h2 as [w2 | msg w2 | r2 w2]; try exact I.
      destruct Hjson as (s & echoReq & AppID & Hreader & Hdecode & -> & Hctx & Happ & Hid).
      split.
      * exists echoReq, AppID. repeat split; assumption.
      * destruct Hcases as [(Hdev & _ & _) | (_ & Hgate)];
          [now left | right; now exists req', w1].
Qed.

(** X10. With verification on and without [_dev], whenever the chain of the
    two handlers reaches the application, the [EchoRequest] it finds in the
    context is what the JSON decoder makes of exactly the bytes that the body
    of the request delivered, the bytes whose digest the gate has verified
    against the signature: the gate has consumed them and put them back for
    the decoder. *)
Theorem chain_decodes_signed_body (r : RequestValidator) (req : http.Request) (w : World) :
  insecureSkipVerify r = false ->
  url.Get (URL_Query (http.URL req)) "_dev" = "" ->
  exists h,
    (forall next,
       validateRequest r req (fun r1 => verifyJSON r1 next) w = hand_over h next) /\
    match h with
    | Forwarded r2 w2 =>
        exists s echoReq req' w',
          readers w !! http.Body req = Some s /\
          io.failure s = None /\
          IsValidAlexaRequest r req w = (Ret (true, req'), w') /\
          In (EvVerifyPKCS1v15 (sha1_Sum (io.data s))
                (fst (base64_DecodeString (Header_Get (http.Header_ req) "Signature"))))
             (events_since w w') /\
          fst (json_Decode (io.mkStream (io.data s) None)) = inr (Some echoReq) /\
          GetEchoRequest r2 = Ret echoReq
    | _ => True
    end.
Proof.
  intros Hnoskip Hdev.
  destruct (validateRequest_cases r req w) as (h1 & Hh1 & Hcases).
  destruct h1 as [w1 | msg w1 | req' w1].
  - exists (Answered w1). split; [| exact I]. intros next. now rewrite Hh1.
  - exists (Panicked msg w1). split; [| exact I]. intros next. now rewrite Hh1.
  - destruct (verifyJSON_cases req' w1) as (h2 & Hh2 & Hjson).
    exists h2. split.
    + intros next. rewrite Hh1. cbn [hand_over]. apply Hh2.
    + destruct h2 as [w2 | msg w2 | r2 w2]; try exact I.
      destruct Hjson as (s1 & echoReq & AppID & Hreader & Hdecode & -> & Hctx & _).
      destruct Hcases as [(Hset & _ & _) | (_ & Hgate)]; [contradiction |].
      destruct (accepted_body _ _ _ _ _ Hgate Hnoskip)
        as (s & Hfirst & Hreadable & Hverified & Hreplayed & _).
      rewrite Hreplayed in Hreader. injection Hreader as <-.
      exists s, echoReq, req', w1. repeat split; assumption.
Qed.

(** X8. The [_dev] parameter does not switch off the application id check of
    [verifyJSON]: whatever the timestamp check says, a request whose id the
    registered application refuses is answered 400 "Echo AppID mismatch!" and
    not passed on. *)
Theorem verifyJSON_dev_keeps_app_id_check (r : http.Request)
  (next : http.Request -> M unit) (w w1 : World)
  (s : io.Stream) (echoReq : EchoRequest) (s' : io.Stream) (fresh : bool)
  (AppID : string) :
  url.Get (URL_Query (http.URL r)) "_dev" <> "" ->
  readers w !! http.Body r = Some s ->
  json_Decode s = (inr (Some echoReq), s') ->
  VerifyTimestamp echoReq
    (store (<[http.Body r := s']> (readers w)) (observe [EvJSONDecode] w))
    = (Ret fresh, w1) ->
  applications w1 !! url.Path (http.URL r) = Some (EchoApplication AppID) ->
  VerifyAppID echoReq AppID = false ->
  verifyJSON r next w
  = (Ret tt,
     observe [EvLog "Echo AppID mismatch!"; EvHTTPError "Bad Request" 400] w1).
Proof.
  intros Hdev Hreader Hdecode Hfresh Happ Hid.
  rewrite verifyJSON_run, Hreader. cbv zeta. rewrite Hdecode. cbn [fst snd].
  rewrite Hfresh.
  destruct (String.eqb_spec (url.Get (URL_Query (http.URL r)) "_dev") "") as [Heq | _];
    [contradiction |].
  rewrite andb_false_r.
  unfold checkAppID, bind, lookup_application.
  rewrite Happ, Hid. cbn [negb].
  now rewrite HTTPError_run.
Qed.

(** X9. A request that passes the timestamp check for a path under which no
    [EchoApplication] is registered (no entry, or a [StdApplication]) makes
    [verifyJSON] panic: no answer is written and the next handler is not
    called. *)
Theorem verifyJSON_panics_on_unregistered_path (r : http.Request)
  (next : http.Request -> M unit) (w w1 : World)
  (s : io.Stream) (echoReq : EchoRequest) (s' : io.Stream) :
  readers w !! http.Body r = Some s ->
  json_Decode s = (inr (Some echoReq), s') ->
  VerifyTimestamp echoReq
    (store (<[http.Body r := s']> (readers w)) (observe [EvJSONDecode] w))
    = (Ret true, w1) ->
  (forall AppID,
     applications w1 !! url.Path (http.URL r) <> Some (EchoApplication AppID)) ->
  verifyJSON r next w
  = (Panic "interface conversion: interface {} is not skillserver.EchoApplication", w1).
Proof.
  intros Hreader Hdecode Hfresh Happ.
  rewrite verifyJSON_run, Hreader. cbv zeta. rewrite Hdecode. cbn [fst snd].
  rewrite Hfresh. cbn [negb andb].
  unfold checkAppID, bind, lookup_application.
  destruct (applications w1 !! url.Path (http.URL r)) as [[AppID | methods'] |] eqn:Hentry;
    try reflexivity.
  now destruct (Happ AppID).
Qed.

End JSON.
End MiddlewareProperties.

(** ** Construction of the validator *)

Lemma apply_collects (options : list RequestValidatorOption) (c : configurator) :
  apply c (map WithRequestValidatorOptions options)
  = mkConfigurator (requestValidatorOptions c ++ options)%list.
Proof.
  unfold apply. revert c.
  induction options as [| option options IH]; intros c; cbn [map fold_left].
  - rewrite app_nil_r. now destruct c.
  - rewrite IH. unfold WithRequestValidatorOptions. cbn [requestValidatorOptions].
    now rewrite <- app_assoc.
Qed.

(** X11. The configurator collects the validator options it is handed through
    [WithRequestValidatorOptions], all of them and in the order given. *)
Theorem newConfigurator_collects (options : list RequestValidatorOption) :
  requestValidatorOptions (newConfigurator (map WithRequestValidatorOptions options))
  = options.
Proof. unfold newConfigurator. now rewrite apply_collects. Qed.

Lemma provided_keep_client (options : list RequestValidatorOption) (r : RequestValidator) :
  Forall provided options ->
  client (fold_left (fun r option => option r) options r) = client r.
Proof.
  intros Hall. revert r.
  induction Hall as [| option options Hoption _ IH]; intros r; cbn [fold_left].
  - reflexivity.
  - rewrite IH. now destruct Hoption.
Qed.

(** The client of a validator that the constructor has built from options of
    the package. *)
Lemma constructed_client (p : Platform) (options : list RequestValidatorOption)
  (v : RequestValidator) :
  Forall provided options ->
  NewRequestValidator p options = inr v ->
  exists c,
    client v = Some c /\
    http.Timeout c = timeout v /\
    tls.InsecureSkipVerify (http.TLSClientConfig c) = insecureSkipVerify v /\
    tls.RootCAs (http.TLSClientConfig c)
    = (if String.eqb (GOOS p) "windows" then None
       else match SystemCertPool p with inr pool => pool | inl _ => None end).
Proof.
  intros Hall. unfold NewRequestValidator. cbv zeta.
  rewrite (provided_keep_client options _ Hall). cbn [client].
  destruct (String.eqb (GOOS p) "windows"); cbn [negb].
  - intros [= <-]. eexists. repeat split.
  - destruct (SystemCertPool p) as [err | [pool |]]; try discriminate.
    intros [= <-]. eexists. repeat split.
Qed.

(** X12. A validator built from options of the package always has a client,
    and the client agrees with the validator's settings: its timeout is the
    validator's timeout, its TLS configuration skips verification exactly when
    the validator does, and its roots are the pool that was loaded. *)
Theorem NewRequestValidator_client_matches (p : Platform)
  (options : list RequestValidatorOption) (v : RequestValidator) :
  Forall provided options ->
  NewRequestValidator p options = inr v ->
  exists c,
    client v = Some c /\
    http.Timeout c = timeout v /\
    tls.InsecureSkipVerify (http.TLSClientConfig c) = insecureSkipVerify v /\
    tls.RootCAs (http.TLSClientConfig c)
    = (if String.eqb (GOOS p) "windows" then None
       else match SystemCertPool p with inr pool => pool | inl _ => None end).
Proof. exact (constructed_client p options v). Qed.

(** X13. The constructor fails exactly when the platform is not windows and
    the system pool cannot be opened or is nil, with the matching message;
    under windows the pool is not consulted, and no option can make the
    constructor fail. *)
Theorem NewRequestValidator_fails_iff (p : Platform)
  (options : list RequestValidatorOption) (err : string) :
  NewRequestValidator p options = inl err <->
  GOOS p <> "windows" /\
  ((exists cause, SystemCertPool p = inl cause /\
                  err = "can't open system cert pool: " ++ cause) \/
   (SystemCertPool p = inr None /\ err = "certpool is empty")).
Proof.
  unfold NewRequestValidator. cbv zeta.
  destruct (String.eqb_spec (GOOS p) "windows") as [Hwin | Hother]; cbn [negb].
  - destruct (client _); (split; [discriminate | intros [Hne _]; contradiction]).
  - destruct (SystemCertPool p) as [cause | [pool |]].
    + split.
      * intros [= <-]. split; [assumption | left; now exists cause].
      * intros [_ [(cause' & [= <-] & ->) | [Hnil _]]]; [reflexivity | discriminate].
    + destruct (client _); (split; [discriminate |]);
        intros [_ [(cause' & Hcause & _) | [Hnil _]]]; discriminate.
    + split.
      * intros [= <-]. split; [assumption | now right].
      * intros [_ [(cause' & Hcause & _) | [_ ->]]]; [discriminate | reflexivity].
Qed.

(** X14. Options run in order and the last one of a kind wins: after any
    options of the package, a final [WithRequestValidatorTimeout t] gives the
    validator and its client the timeout [t]; without any option the timeout
    is five seconds and verification is not skipped. *)
Theorem NewRequestValidator_last_timeout_wins (p : Platform)
  (options : list RequestValidatorOption) (t : Z) (v v0 : RequestValidator) :
  Forall provided options ->
  NewRequestValidator p (options ++ [WithRequestValidatorTimeout t]) = inr v ->
  NewRequestValidator p [] = inr v0 ->
  timeout v = t /\
  option_map http.Timeout (client v) = Some t /\
  timeout v0 = 5 * time.Second /\
  insecureSkipVerify v0 = false.
Proof.
  intros Hall. unfold NewRequestValidator. cbv zeta.
  rewrite fold_left_app. cbn [fold_left].
  unfold WithRequestValidatorTimeout at 1 2 3. cbn [client timeout insecureSkipVerify].
  rewrite (provided_keep_client options _ Hall). cbn [client].
  destruct (if negb (String.eqb (GOOS p) "windows") then _ else _) as [err | pool];
    [discriminate |].
  intros [= <-] [= <-]. repeat split.
Qed.

Section BuiltValidator.
Context {lib : GoLib}.

(** X15. A validator built with a final [WithInsecureSkipVerify true] accepts
    every request without looking at it: the gate returns true, observes
    nothing, and leaves the request and the world as they were; the client it
    would fetch with does not verify TLS either. *)
Theorem insecure_option_disables_gate (p : Platform)
  (options : list RequestValidatorOption) (v : RequestValidator)
  (request : http.Request) (w : World) :
  Forall provided options ->
  NewRequestValidator p (options ++ [WithInsecureSkipVerify true]) = inr v ->
  IsValidAlexaRequest v request w = (Ret (true, request), w) /\
  option_map (fun c => tls.InsecureSkipVerify (http.TLSClientConfig c)) (client v)
  = Some true.
Proof.
  intros Hall. unfold NewRequestValidator. cbv zeta.
  rewrite fold_left_app. cbn [fold_left].
  unfold WithInsecureSkipVerify at 1 2 3. cbn [client timeout insecureSkipVerify].
  rewrite (provided_keep_client options _ Hall). cbn [client].
  destruct (if negb (String.eqb (GOOS p) "windows") then _ else _) as [err | pool];
    [discriminate |].
  intros [= <-]. split; reflexivity.
Qed.

(** X22. A validator that the constructor has built from options of the
    package never lacks a client: with verification on, on every request whose
    certificate URL passes [verifyCertURL], the gate gets as far as the call
    of [Get], which it makes once, with the URL of the header, and it does not
    end in the panic of a validator without a client. *)
Theorem constructed_validator_fetches (p : Platform)
  (options : list RequestValidatorOption) (v : RequestValidator)
  (request : http.Request) (w : World) :
  Forall provided options ->
  NewRequestValidator p options = inr v ->
  insecureSkipVerify v = false ->
  verifyCertURL (Header_Get (http.Header_ request) "SignatureCertChainUrl") = Ret true ->
  filter is_fetch (events_since w (snd (IsValidAlexaRequest v request w)))
  = [EvGet (Header_Get (http.Header_ request) "SignatureCertChainUrl")] /\
  IsValidAlexaRequest v request w <> (Panic nil_dereference, w).
Proof.
  intros Hall Hbuilt Hnoskip Hvalid.
  destruct (constructed_client p options v Hall Hbuilt) as (c & Hclient & _).
  destruct (IsValidAlexaRequest v request w) as [o w'] eqn:Hrun.
  destruct (gate_calls_Get _ _ _ _ _ Hrun) as [Hcalls _].
  rewrite Hnoskip, Hvalid, Hclient in Hcalls. cbn [snd].
  split; [exact Hcalls |].
  intros [= -> ->]. rewrite events_since_refl in Hcalls. discriminate.
Qed.
End BuiltValidator.

(** ** The handler of an application *)

Section DispatchProperties.
Context {lib : GoLib} {methods : EchoRequestMethods} {EchoResponse : Type}.
Variable GetRequestType : EchoRequest -> string.
Variable NewEchoResponse : EchoResponse.
Variable EchoResponse_String : EchoResponse -> bytes * error.

Local Abbreviation handler := (handlerFunc GetRequestType NewEchoResponse EchoResponse_String).


(** X17. Run behind [verifyJSON], the handler of an application finds the
    decoded request in the context: for a request of type "IntentRequest" that
    [verifyJSON] passes on, the [OnIntent] callback is run on exactly the
    decoded [EchoRequest] and a fresh response, none of the other callbacks
    is run, and the JSON of the response it returns is written. *)
Theorem verifyJSON_then_handler (app : EchoApp) (onIntent : Callback)
  (r : http.Request) (w w1 : World) (s : io.Stream) (echoReq : EchoRequest)
  (s' : io.Stream) (id : string) :
  Handler app = None ->
  OnIntent app = Some onIntent ->
  GetRequestType echoReq = "IntentRequest" ->
  readers w !! http.Body r = Some s ->
  json_Decode s = (inr (Some echoReq), s') ->
  VerifyTimestamp echoReq
    (store (<[http.Body r := s']> (readers w)) (observe [EvJSONDecode] w))
    = (Ret true, w1) ->
  applications w1 !! url.Path (http.URL r) = Some (EchoApplication id) ->
  VerifyAppID echoReq id = true ->
  verifyJSON r (fun r' => handler app r' ;; ret tt) w
  = (echoResp <- onIntent echoReq NewEchoResponse ;; ret tt) w1 /\
  forall r', http.echoRequest r' = Some echoReq ->
    handler app r'
    = (echoResp <- onIntent echoReq NewEchoResponse ;;
       ret [HeaderSet "Content-Type" "application/json;charset=UTF-8";
            BodyWrite (fst (EchoResponse_String echoResp))]).
Proof.
  intros Hhandler Hintent Htype Hreader Hdecode Hfresh Happ Hid.
  assert (Hrun : forall r', http.echoRequest r' = Some echoReq ->
    handler app r'
    = (echoResp <- onIntent echoReq NewEchoResponse ;;
       ret [HeaderSet "Content-Type" "application/json;charset=UTF-8";
            BodyWrite (fst (EchoResponse_String echoResp))])).
  { intros r' Hctx. unfold handlerFunc, GetEchoRequest. rewrite Hhandler, Hctx.
    unfold bind at 1. unfold lift. cbv beta iota.
    rewrite Htype, Hintent. reflexivity. }
  split; [| exact Hrun].
  rewrite verifyJSON_run, Hreader. cbv zeta. rewrite Hdecode. cbn [fst snd].
  rewrite Hfresh. cbn [negb andb].
  unfold checkAppID. unfold bind at 1. unfold lookup_application.
  rewrite Happ, Hid. cbn [negb].
  rewrite Hrun; [| reflexivity].
  unfold bind, ret. destruct (onIntent echoReq NewEchoResponse w1) as [[resp | msg] w2];
    reflexivity.
Qed.

End DispatchProperties.

(** ** More runs on the bench *)

Lemma one_answer_per_rejection_witness :
  exists pre body code,
    events_since (Bench.offline 1500 Bench.body)
      (snd (IsValidAlexaRequest (lib := Bench.lib) Bench.validator Bench.signed
              (Bench.offline 1500 Bench.body)))
    = (pre ++ [EvHTTPError body code])%list /\
    filter is_answer pre = [].
Proof.
  apply (one_answer_per_rejection (lib := Bench.lib) Bench.validator Bench.signed
           (Bench.offline 1500 Bench.body)
           (snd (IsValidAlexaRequest (lib := Bench.lib) Bench.validator Bench.signed
                   (Bench.offline 1500 Bench.body)))
           (Ret (false, Bench.signed))).
  vm_compute. reflexivity.
Defined.

Lemma fetch_only_after_valid_url_witness :
  filter is_fetch
    (events_since (Bench.world 1500 [Byte.x01] Bench.body)
       (snd (IsValidAlexaRequest (lib := Bench.lib) Bench.validator Bench.signed
               (Bench.world 1500 [Byte.x01] Bench.body))))
  = [EvGet Bench.certURL] /\
  fetches (snd (IsValidAlexaRequest (lib := Bench.lib) Bench.validator Bench.signed
                  (Bench.world 1500 [Byte.x01] Bench.body)))
  = 1%nat.
Proof.
  destruct (fetch_only_after_valid_url (lib := Bench.lib) Bench.validator Bench.signed
              (Bench.world 1500 [Byte.x01] Bench.body)
              (snd (IsValidAlexaRequest (lib := Bench.lib) Bench.validator Bench.signed
                      (Bench.world 1500 [Byte.x01] Bench.body)))
              (Ret (true, http.with_Body Bench.signed 1%nat)))
    as [Hcalls Hcount].
  - vm_compute. reflexivity.
  - split.
    + etransitivity; [exact Hcalls | vm_compute; reflexivity].
    + etransitivity; [exact Hcount | vm_compute; reflexivity].
Defined.

Lemma acceptance_implies_every_check_witness :
  verifyCertURL (lib := Bench.lib)
    (Header_Get (lib := Bench.lib) (http.Header_ Bench.signed) "SignatureCertChainUrl")
  = Ret true.
Proof.
  apply (acceptance_implies_every_check (lib := Bench.lib) Bench.validator
           Bench.signed (http.with_Body Bench.signed 1%nat)
           (Bench.world 1500 [Byte.x01] Bench.body)
           (snd (IsValidAlexaRequest (lib := Bench.lib) Bench.validator Bench.signed
                   (Bench.world 1500 [Byte.x01] Bench.body)))).
  - vm_compute. reflexivity.
  - reflexivity.
Defined.

(** After an accepting run on the bench, the reader at address 1 delivers
    what the reader at address 0 would have delivered before it. *)
Lemma request_preserved_witness :
  fst (read_to_end 1%nat
         (snd (IsValidAlexaRequest (lib := Bench.lib) Bench.validator Bench.signed
                 (Bench.world 1500 [Byte.x01] Bench.body))))
  = fst (read_to_end 0%nat (Bench.world 1500 [Byte.x01] Bench.body)).
Proof.
  destruct (request_preserved (lib := Bench.lib) Bench.validator
              Bench.signed (http.with_Body Bench.signed 1%nat)
              (Bench.world 1500 [Byte.x01] Bench.body)
              (snd (IsValidAlexaRequest (lib := Bench.lib) Bench.validator Bench.signed
                      (Bench.world 1500 [Byte.x01] Bench.body)))
              true)
    as (_ & _ & _ & _ & Hread & _).
  - vm_compute. reflexivity.
  - apply (Hread (io.mkStream Bench.body None)); reflexivity.
Defined.

Lemma revalidation_gives_same_verdict_witness :
  exists req'' w'',
    IsValidAlexaRequest (lib := Bench.lib) Bench.validator
      (http.with_Body Bench.signed 1%nat)
      (snd (IsValidAlexaRequest (lib := Bench.lib) Bench.validator Bench.signed
              (Bench.world 1500 [Byte.x01] Bench.body)))
    = (Ret (true, req''), w'') /\
    events_since
      (snd (IsValidAlexaRequest (lib := Bench.lib) Bench.validator Bench.signed
              (Bench.world 1500 [Byte.x01] Bench.body)))
      w''
    = events_since (Bench.world 1500 [Byte.x01] Bench.body)
        (snd (IsValidAlexaRequest (lib := Bench.lib) Bench.validator Bench.signed
                (Bench.world 1500 [Byte.x01] Bench.body))).
Proof.
  apply (revalidation_gives_same_verdict (lib := Bench.lib) Bench.validator
           Bench.signed (http.with_Body Bench.signed 1%nat)
           (Bench.world 1500 [Byte.x01] Bench.body)
           (snd (IsValidAlexaRequest (lib := Bench.lib) Bench.validator Bench.signed
                   (Bench.world 1500 [Byte.x01] Bench.body)))
           true (Bench.at_second 1500)).
  - intros n. reflexivity.
  - intros c certURL. reflexivity.
  - intros s [= <-]. reflexivity.
  - vm_compute. reflexivity.
Defined.

(** Two runs on the bench that differ in the query of the request, in what
    has been observed before and in the readers other than the body. *)
Lemma verdict_depends_on_witness :
  verdict (fst (IsValidAlexaRequest (lib := Bench.lib) Bench.validator Bench.signed
                  (Bench.world 1500 [Byte.x01] Bench.body)))
  = verdict (fst (IsValidAlexaRequest (lib := Bench.lib) Bench.validator
                    (Bench.request "page=2" Bench.certURL "QUJDRA==")
                    (store [io.mkStream Bench.body None; io.mkStream [] None]
                       (observe [EvLog "earlier"]
                          (Bench.world 1500 [Byte.x01] Bench.body))))) /\
  events_since (Bench.world 1500 [Byte.x01] Bench.body)
    (snd (IsValidAlexaRequest (lib := Bench.lib) Bench.validator Bench.signed
            (Bench.world 1500 [Byte.x01] Bench.body)))
  = events_since
      (store [io.mkStream Bench.body None; io.mkStream [] None]
         (observe [EvLog "earlier"] (Bench.world 1500 [Byte.x01] Bench.body)))
      (snd (IsValidAlexaRequest (lib := Bench.lib) Bench.validator
              (Bench.request "page=2" Bench.certURL "QUJDRA==")
              (store [io.mkStream Bench.body None; io.mkStream [] None]
                 (observe [EvLog "earlier"]
                    (Bench.world 1500 [Byte.x01] Bench.body))))).
Proof.
  apply (verdict_depends_on (lib := Bench.lib) Bench.validator Bench.signed
           (Bench.request "page=2" Bench.certURL "QUJDRA==")
           (Bench.world 1500 [Byte.x01] Bench.body)
           (store [io.mkStream Bench.body None; io.mkStream [] None]
              (observe [EvLog "earlier"] (Bench.world 1500 [Byte.x01] Bench.body))));
    reflexivity.
Defined.

Lemma gate_panics_only_witness :
  filter is_answer
    (events_since (Bench.world 1500 [Byte.x04] Bench.body)
       (snd (IsValidAlexaRequest (lib := Bench.lib) Bench.validator Bench.signed
               (Bench.world 1500 [Byte.x04] Bench.body))))
  = [].
Proof.
  apply (gate_panics_only (lib := Bench.lib) Bench.validator Bench.signed
           (Bench.world 1500 [Byte.x04] Bench.body)
           (snd (IsValidAlexaRequest (lib := Bench.lib) Bench.validator Bench.signed
                   (Bench.world 1500 [Byte.x04] Bench.body)))
           failed_assertion).
  vm_compute. reflexivity.
Defined.

Lemma gate_needs_client_witness :
  IsValidAlexaRequest (lib := Bench.lib) Bench.zero_validator Bench.signed
    (Bench.world 1500 [Byte.x01] Bench.body)
  = (Panic nil_dereference, Bench.world 1500 [Byte.x01] Bench.body).
Proof.
  apply (gate_needs_client (lib := Bench.lib) Bench.zero_validator Bench.signed
           (Bench.world 1500 [Byte.x01] Bench.body)).
  - reflexivity.
  - reflexivity.
  - vm_compute. reflexivity.
Defined.

Lemma verifyJSON_dev_keeps_app_id_check_witness :
  verifyJSON (lib := Bench.lib) (methods := Spec.methods Bench.verifyAppID)
    (Fixtures.fresh "_dev=1") Bench.downstream Fixtures.other_application
  = (Ret tt,
     observe [EvLog "Echo AppID mismatch!"; EvHTTPError "Bad Request" 400]
       (tick (store [io.mkStream [] None]
                (observe [EvJSONDecode] Fixtures.other_application)))).
Proof.
  apply (verifyJSON_dev_keeps_app_id_check (lib := Bench.lib)
           (methods := Spec.methods Bench.verifyAppID)
           (Fixtures.fresh "_dev=1") Bench.downstream Fixtures.other_application
           (tick (store [io.mkStream [] None]
                    (observe [EvJSONDecode] Fixtures.other_application)))
           (io.mkStream Fixtures.json None) Bench.fresh_request (io.mkStream [] None)
           true "app-2").
  - vm_compute. discriminate.
  - reflexivity.
  - reflexivity.
  - reflexivity.
  - vm_compute. reflexivity.
  - reflexivity.
Defined.

Lemma verifyJSON_panics_on_unregistered_path_witness :
  verifyJSON (lib := Bench.lib) (methods := Spec.methods Bench.verifyAppID)
    (Fixtures.fresh "") Bench.downstream Fixtures.page_only
  = (Panic "interface conversion: interface {} is not skillserver.EchoApplication",
     tick (store [io.mkStream [] None] (observe [EvJSONDecode] Fixtures.page_only))).
Proof.
  apply (verifyJSON_panics_on_unregistered_path (lib := Bench.lib)
           (methods := Spec.methods Bench.verifyAppID)
           (Fixtures.fresh "") Bench.downstream Fixtures.page_only
           (tick (store [io.mkStream [] None] (observe [EvJSONDecode] Fixtures.page_only)))
           (io.mkStream Fixtures.json None) Bench.fresh_request (io.mkStream [] None)).
  - reflexivity.
  - reflexivity.
  - reflexivity.
  - intros AppID. vm_compute. discriminate.
Defined.

Lemma chain_decodes_signed_body_witness :
  exists h,
    (forall next,
       validateRequest (lib := Bench.lib) Bench.validator (Fixtures.fresh "")
         (fun r1 => verifyJSON (lib := Bench.lib)
                      (methods := Spec.methods Bench.verifyAppID) r1 next)
         (Bench.world 1500 [Byte.x01] Fixtures.json)
       = hand_over h next) /\
    match h with
    | Forwarded r2 w2 =>
        exists s echoReq req' w',
          readers (Bench.world 1500 [Byte.x01] Fixtures.json)
            !! http.Body (Fixtures.fresh "") = Some s /\
          io.failure s = None /\
          IsValidAlexaRequest (lib := Bench.lib) Bench.validator (Fixtures.fresh "")
            (Bench.world 1500 [Byte.x01] Fixtures.json)
          = (Ret (true, req'), w') /\
          In (EvVerifyPKCS1v15 (sha1_Sum (GoLib := Bench.lib) (io.data s))
                (fst (base64_DecodeString (GoLib := Bench.lib)
                        (Header_Get (lib := Bench.lib)
                           (http.Header_ (Fixtures.fresh "")) "Signature"))))
             (events_since (Bench.world 1500 [Byte.x01] Fixtures.json) w') /\
          fst (json_Decode (GoLib := Bench.lib) (io.mkStream (io.data s) None))
          = inr (Some echoReq) /\
          GetEchoRequest r2 = Ret echoReq
    | _ => True
    end.
Proof.
  apply (chain_decodes_signed_body (lib := Bench.lib)
           (methods := Spec.methods Bench.verifyAppID)
           Bench.validator (Fixtures.fresh "")
           (Bench.world 1500 [Byte.x01] Fixtures.json)).
  - reflexivity.
  - vm_compute. reflexivity.
Defined.

Lemma NewRequestValidator_client_matches_witness :
  exists c,
    client (mkRequestValidator
              (Some (http.mkClient 1000000000 (tls.mkConfig (Some [[Byte.x01]]) true)))
              true 1000000000)
    = Some c /\
    http.Timeout c = 1000000000 /\
    tls.InsecureSkipVerify (http.TLSClientConfig c) = true /\
    tls.RootCAs (http.TLSClientConfig c) = Some [[Byte.x01]].
Proof.
  apply (NewRequestValidator_client_matches Fixtures.linux
           [WithRequestValidatorTimeout 1000000000; WithInsecureSkipVerify true]).
  - repeat constructor.
  - reflexivity.
Defined.

Lemma NewRequestValidator_last_timeout_wins_witness :
  timeout (mkRequestValidator
             (Some (http.mkClient 1000000000 (tls.mkConfig (Some [[Byte.x01]]) true)))
             true 1000000000)
  = 1000000000 /\
  timeout Bench.validator = 5 * time.Second.
Proof.
  destruct (NewRequestValidator_last_timeout_wins Fixtures.linux
              [WithRequestValidatorTimeout 7; WithInsecureSkipVerify true] 1000000000
              (mkRequestValidator
                 (Some (http.mkClient 1000000000 (tls.mkConfig (Some [[Byte.x01]]) true)))
                 true 1000000000)
              Bench.validator)
    as (Hlast & _ & Hdefault & _).
  - repeat constructor.
  - reflexivity.
  - reflexivity.
  - split; assumption.
Defined.

Lemma insecure_option_disables_gate_witness :
  IsValidAlexaRequest (lib := Bench.lib)
    (mkRequestValidator (Some (http.mkClient 7 (tls.mkConfig (Some [[Byte.x01]]) true)))
       true 7)
    (Bench.request "" ":" "") (Bench.offline 1500 [])
  = (Ret (true, Bench.request "" ":" ""), Bench.offline 1500 []).
Proof.
  apply (insecure_option_disables_gate (lib := Bench.lib) Fixtures.linux
           [WithRequestValidatorTimeout 7]
           (mkRequestValidator
              (Some (http.mkClient 7 (tls.mkConfig (Some [[Byte.x01]]) true))) true 7)).
  - repeat constructor.
  - reflexivity.
Defined.

(** The validator of the bench is the one the constructor builds without
    options. *)
Lemma constructed_validator_fetches_witness :
  filter is_fetch
    (events_since (Bench.offline 1500 Bench.body)
       (snd (IsValidAlexaRequest (lib := Bench.lib) Bench.validator Bench.signed
               (Bench.offline 1500 Bench.body))))
  = [EvGet Bench.certURL].
Proof.
  destruct (constructed_validator_fetches (lib := Bench.lib) Fixtures.linux []
              Bench.validator Bench.signed (Bench.offline 1500 Bench.body))
    as [Hcalls _].
  - constructor.
  - reflexivity.
  - reflexivity.
  - vm_compute. reflexivity.
  - etransitivity; [exact Hcalls | vm_compute; reflexivity].
Defined.


Lemma verifyJSON_then_handler_witness :
  verifyJSON (lib := Bench.lib) (methods := Spec.methods Bench.verifyAppID)
    (Fixtures.fresh "")
    (fun r' => handlerFunc Fixtures.requestType "" Fixtures.encode Fixtures.skill r' ;; ret tt)
    (Bench.world 1500 [Byte.x01] Fixtures.json)
  = (echoResp <- Fixtures.onIntent Bench.fresh_request "" ;; ret tt)
      (tick (store [io.mkStream [] None]
               (observe [EvJSONDecode] (Bench.world 1500 [Byte.x01] Fixtures.json)))).
Proof.
  apply (verifyJSON_then_handler (lib := Bench.lib)
           (methods := Spec.methods Bench.verifyAppID)
           Fixtures.requestType "" Fixtures.encode Fixtures.skill Fixtures.onIntent
           (Fixtures.fresh "") (Bench.world 1500 [Byte.x01] Fixtures.json)
           (tick (store [io.mkStream [] None]
                    (observe [EvJSONDecode] (Bench.world 1500 [Byte.x01] Fixtures.json))))
           (io.mkStream Fixtures.json None) Bench.fresh_request (io.mkStream [] None)
           "app-1").
  - reflexivity.
  - reflexivity.
  - reflexivity.
  - reflexivity.
  - reflexivity.
  - reflexivity.
  - vm_compute. reflexivity.
  - reflexivity.
Defined.
